(** * Blackjack practice engine: shoe, hands, round state machine, advisor

    A shallow embedding of [src/js/deck.js] and [src/js/game.js].

    Conventions of the embedding.
    - A JavaScript array is a [list]; index [0] is the head, [push]
      appends at the end and [pop] removes the last element.
    - Counts and hand totals are integers ([Z]).  Amounts of money are
      exact rationals ([Q]): the engine only adds, subtracts, halves and
      multiplies stakes, which is exact on doubles for every amount the
      table accepts.  Equality of amounts is [Qeq] ([==]).
    - The two places where the source really depends on IEEE-754
      rounding, [Deck.getTrueCount] and [Deck.needsReshuffle], use
      Rocq's primitive binary64 floats.
    - A JavaScript exception ([TypeError] on [null]/[undefined]) is
      [None]; every operation that can throw returns an [option].
    - The notification callbacks ([onStateChange], [onCardDealt], ...)
      are observers: they receive values and do not call back into the
      engine, so they do not appear in the state.  The persistence
      calls ([saveBalance], [saveStats], ...) write to external storage
      only.
    - A card object is shared between the shoe's piles and the hand it
      was dealt to.  The only mutable field, [faceUp], is written by
      [dealCardToHand] each time a card is dealt and is read only
      through the hand that holds the card, so hands carry the card
      with its current [faceUp] and the flag of a card lying in a pile
      is never consulted. *)

From Stdlib Require Import ZArith QArith Floats Uint63 Lia.
From stdpp Require Import base list strings pretty gmap.

Local Open Scope Z_scope.

(** ** Cards ([deck.js], constants and [createCard]) *)

Inductive Suit := Spades | Hearts | Diamonds | Clubs.

Inductive Rank :=
  | RA | R2 | R3 | R4 | R5 | R6 | R7 | R8 | R9 | R10 | RJ | RQ | RK.

Definition SUITS : list Suit := [Spades; Hearts; Diamonds; Clubs].

Definition RANKS : list Rank :=
  [RA; R2; R3; R4; R5; R6; R7; R8; R9; R10; RJ; RQ; RK].

Global Instance Suit_eq_dec : EqDecision Suit.
Proof. solve_decision. Defined.

Global Instance Rank_eq_dec : EqDecision Rank.
Proof. solve_decision. Defined.

(** The rank as the source spells it (a key of the counting tables and
    of the pair table). *)
Definition rank_name (r : Rank) : string :=
  match r with
  | RA => "A" | R2 => "2" | R3 => "3" | R4 => "4" | R5 => "5"
  | R6 => "6" | R7 => "7" | R8 => "8" | R9 => "9" | R10 => "10"
  | RJ => "J" | RQ => "Q" | RK => "K"
  end.

(** [getCardValue]: ace 11, face cards 10, otherwise [parseInt(rank)]. *)
Definition getCardValue (r : Rank) : Z :=
  match r with
  | RA => 11
  | RJ | RQ | RK => 10
  | R2 => 2 | R3 => 3 | R4 => 4 | R5 => 5 | R6 => 6
  | R7 => 7 | R8 => 8 | R9 => 9 | R10 => 10
  end.

(** A card.  [value], [isAce], [isFaceCard] and [isRed] are fixed by
    [createCard] from rank and suit, so they are functions here. *)
Record Card := mkCard { suit : Suit; rank : Rank; faceUp : bool }.

Global Instance Card_eq_dec : EqDecision Card.
Proof. solve_decision. Defined.

Definition createCard (s : Suit) (r : Rank) : Card :=
  {| suit := s; rank := r; faceUp := true |}.

Definition value (c : Card) : Z := getCardValue (rank c).

Definition isAce (c : Card) : bool := bool_decide (rank c = RA).

Definition isFaceCard (c : Card) : bool :=
  bool_decide (rank c ∈ [RJ; RQ; RK]).

Definition isRed (c : Card) : bool :=
  bool_decide (suit c = Hearts) || bool_decide (suit c = Diamonds).

Definition setFaceUp (b : bool) (c : Card) : Card :=
  {| suit := suit c; rank := rank c; faceUp := b |}.

(** ** Counting systems ([COUNTING_SYSTEMS]) *)

Inductive CountingSystem := HiLo | KO | Omega2 | HiOpt1 | HiOpt2.

Definition COUNTING_SYSTEMS (s : CountingSystem) (r : Rank) : Z :=
  match s, r with
  | HiLo, RA => -1
  | HiLo, (R2 | R3 | R4 | R5 | R6) => 1
  | HiLo, (R7 | R8 | R9) => 0
  | HiLo, (R10 | RJ | RQ | RK) => -1
  | KO, RA => -1
  | KO, (R2 | R3 | R4 | R5 | R6 | R7) => 1
  | KO, (R8 | R9) => 0
  | KO, (R10 | RJ | RQ | RK) => -1
  | Omega2, RA => 0
  | Omega2, (R2 | R3 | R7) => 1
  | Omega2, (R4 | R5 | R6) => 2
  | Omega2, R8 => 0
  | Omega2, R9 => -1
  | Omega2, (R10 | RJ | RQ | RK) => -2
  | HiOpt1, (RA | R2) => 0
  | HiOpt1, (R3 | R4 | R5 | R6) => 1
  | HiOpt1, (R7 | R8 | R9) => 0
  | HiOpt1, (R10 | RJ | RQ | RK) => -1
  | HiOpt2, RA => 0
  | HiOpt2, (R2 | R3 | R6 | R7) => 1
  | HiOpt2, (R4 | R5) => 2
  | HiOpt2, (R8 | R9) => 0
  | HiOpt2, (R10 | RJ | RQ | RK) => -2
  end.

(** ** JavaScript numbers where rounding matters *)

(** An integer as a double (exact below 2^53). *)
Definition Z2F (z : Z) : float :=
  match z with
  | Z0 => PrimFloat.zero
  | Zpos _ => PrimFloat.of_uint63 (Uint63.of_Z z)
  | Zneg p => PrimFloat.opp (PrimFloat.of_uint63 (Uint63.of_Z (Zpos p)))
  end.


(** ** The shoe ([class Deck]) *)

Module Deck.

Record t := mk {
  deckCount : nat;
  cards : list Card;
  dealtCards : list Card;
  penetration : float;
  runningCount : Z;
  countingSystem : CountingSystem
}.

Definition set_cards (cs : list Card) (d : t) : t :=
  mk (deckCount d) cs (dealtCards d) (penetration d) (runningCount d)
     (countingSystem d).

Definition set_runningCount (rc : Z) (d : t) : t :=
  mk (deckCount d) (cards d) (dealtCards d) (penetration d) rc
     (countingSystem d).

(** One 52-card deck in the order of the two inner loops of
    [initialize]: suits outside, ranks inside. *)
Definition one_deck : list Card :=
  s ← SUITS; r ← RANKS; [createCard s r].

Fixpoint decks (n : nat) : list Card :=
  match n with
  | O => []
  | S n' => one_deck ++ decks n'
  end.

Definition initialize (d : t) : t :=
  mk (deckCount d) (decks (deckCount d)) [] (penetration d) 0
     (countingSystem d).

(** [[array[i], array[j]] = [array[j], array[i]]]: both reads happen
    first, then [array[i]] and [array[j]] are written in that order.
    The shuffle only calls it with [j ≤ i < array.length]. *)
Definition swap (i j : nat) (array : list Card) : list Card :=
  match array !! i, array !! j with
  | Some ai, Some aj => <[j := ai]> (<[i := aj]> array)
  | _, _ => array
  end.

(** The loop of [shuffle], from index [i] down to 1.  [rand k] is the
    [k]-th 32-bit value delivered by [crypto.getRandomValues]; the
    index is [rand k % (i + 1)].  (The [Math.random] fallback also
    yields an index between 0 and [i].) *)
Fixpoint shuffle_loop (rand : nat → nat) (k i : nat) (array : list Card)
    : list Card :=
  match i with
  | O => array
  | S i' =>
      let j := (rand k `mod` (i + 1))%nat in
      shuffle_loop rand (S k) i' (swap i j array)
  end.

Definition shuffle (rand : nat → nat) (d : t) : t :=
  mk (deckCount d)
     (shuffle_loop rand 0 (length (cards d) - 1) (cards d))
     [] (penetration d) 0 (countingSystem d).

(** [deal]: [None] is the source's [null] (empty shoe). *)
Definition deal (d : t) : option Card * t :=
  match last (cards d) with
  | None => (None, d)
  | Some card =>
      (Some card,
       mk (deckCount d) (removelast (cards d)) (dealtCards d ++ [card])
          (penetration d) (runningCount d) (countingSystem d))
  end.

(** [updateCount(card)]; the argument is [None] for [null]. *)
Definition updateCount (card : option Card) (d : t) : t :=
  match card with
  | None => d
  | Some c =>
      if negb (faceUp c) then d
      else set_runningCount
             (runningCount d + COUNTING_SYSTEMS (countingSystem d) (rank c)) d
  end.


Definition getRunningCount (d : t) : Z := runningCount d.

(** [setCountingSystem]: a name outside the table is ignored by the
    source, so the argument is one of the five systems. *)
Definition setCountingSystem (s : CountingSystem) (d : t) : t :=
  mk (deckCount d) (cards d) (dealtCards d) (penetration d)
     (runningCount d) s.

Definition needsReshuffle (d : t) : bool :=
  let totalCards := (Z.of_nat (deckCount d) * 52)%Z in
  let dealtRatio :=
    PrimFloat.div (Z2F (Z.of_nat (length (dealtCards d)))) (Z2F totalCards) in
  PrimFloat.leb (penetration d) dealtRatio.

Definition remaining (d : t) : nat := length (cards d).

Definition total (d : t) : nat := (deckCount d * 52)%nat.

Definition reshuffle (rand : nat → nat) (d : t) : t :=
  shuffle rand
    (mk (deckCount d) (cards d ++ dealtCards d) [] (penetration d) 0
        (countingSystem d)).

Definition setDeckCount (rand : nat → nat) (count : nat) (d : t) : t :=
  shuffle rand
    (initialize
       (mk count (cards d) (dealtCards d) (penetration d) (runningCount d)
           (countingSystem d))).

(** [new Deck(deckCount)]. *)
Definition new (count : nat) : t :=
  initialize (mk count [] [] 0.75%float 0 HiLo).

End Deck.

(** ** Amounts of money *)

Definition Qlt_bool (a b : Q) : bool := negb (Qle_bool b a).

(** ** Hands ([class Hand]) *)

Module Hand.

Record t := mk {
  cards : list Card;
  bet : Q;
  isDoubled : bool;
  isSplit : bool;
  isStood : bool;
  isBusted : bool;
  isSurrendered : bool;
  insuranceBet : Q
}.

Definition new : t := mk [] 0%Q false false false false false 0%Q.

Definition set_cards (cs : list Card) (h : t) : t :=
  mk cs (bet h) (isDoubled h) (isSplit h) (isStood h) (isBusted h)
     (isSurrendered h) (insuranceBet h).

Definition set_bet (b : Q) (h : t) : t :=
  mk (cards h) b (isDoubled h) (isSplit h) (isStood h) (isBusted h)
     (isSurrendered h) (insuranceBet h).

Definition set_isDoubled (b : bool) (h : t) : t :=
  mk (cards h) (bet h) b (isSplit h) (isStood h) (isBusted h)
     (isSurrendered h) (insuranceBet h).

Definition set_isSplit (b : bool) (h : t) : t :=
  mk (cards h) (bet h) (isDoubled h) b (isStood h) (isBusted h)
     (isSurrendered h) (insuranceBet h).

Definition set_isStood (b : bool) (h : t) : t :=
  mk (cards h) (bet h) (isDoubled h) (isSplit h) b (isBusted h)
     (isSurrendered h) (insuranceBet h).

Definition set_isBusted (b : bool) (h : t) : t :=
  mk (cards h) (bet h) (isDoubled h) (isSplit h) (isStood h) b
     (isSurrendered h) (insuranceBet h).

Definition set_isSurrendered (b : bool) (h : t) : t :=
  mk (cards h) (bet h) (isDoubled h) (isSplit h) (isStood h) (isBusted h)
     b (insuranceBet h).

Definition set_insuranceBet (b : Q) (h : t) : t :=
  mk (cards h) (bet h) (isDoubled h) (isSplit h) (isStood h) (isBusted h)
     (isSurrendered h) b.

(** The [for] loop shared by [getValue] and [isSoft]: the running
    [value] and the number of [aces] seen. *)
Definition tally (cs : list Card) : Z * nat :=
  foldl (λ '(v, aces) card,
           (v + value card, if isAce card then S aces else aces))
        (0, O) cs.

(** [while (value > 21 && aces > 0) { value -= 10; aces--; }] *)
Fixpoint reduce (v : Z) (aces : nat) : Z :=
  match aces with
  | O => v
  | S aces' => if 21 <? v then reduce (v - 10) aces' else v
  end.

Definition getValue (h : t) : Z :=
  let '(v, aces) := tally (cards h) in reduce v aces.

Definition isSoft (h : t) : bool :=
  let '(v, aces) := tally (cards h) in
  bool_decide (0 < aces)%nat && (v <=? 21).

Definition isBlackjack (h : t) : bool :=
  bool_decide (length (cards h) = 2%nat) && (getValue h =? 21)
  && negb (isSplit h).

Definition canSplit (h : t) : bool :=
  match cards h with
  | [c0; c1] => bool_decide (rank c0 = rank c1)
  | _ => false
  end.

Definition canDouble (anyCards : bool) (h : t) : bool :=
  if isDoubled h then false
  else if anyCards then true
  else bool_decide (length (cards h) = 2%nat).

Definition checkBust (h : t) : t :=
  if 21 <? getValue h then set_isBusted true h else h.

Definition addCard (card : Card) (h : t) : t :=
  checkBust (set_cards (cards h ++ [card]) h).

Definition clear (h : t) : t := new.

End Hand.

(** ** Game constants ([game.js]) *)

Inductive GameState :=
  | BETTING | DEALING | INSURANCE | PLAYER_TURN | DEALER_TURN | PAYOUT
  | GAME_OVER.

Global Instance GameState_eq_dec : EqDecision GameState.
Proof. solve_decision. Defined.

Module ResultType.

Inductive t := WIN | LOSE | PUSH | BLACKJACK | SURRENDER.

End ResultType.

Module CONFIG.

Definition DEFAULT_BALANCE : Q := 10000%Q.
Definition MIN_BET : Q := 10%Q.
Definition MAX_BET : Q := 999000000000%Q.
Definition BLACKJACK_PAYS : Q := (3 # 2)%Q.
Definition INSURANCE_PAYS : Q := 2%Q.

End CONFIG.

Module Settings.

Record t := mk {
  deckCount : nat;
  dealerHitsSoft17 : bool;
  blackjackPays : Q;
  doubleAfterSplit : bool;
  resplitAces : bool;
  surrenderAllowed : bool;
  insuranceAllowed : bool;
  countingEnabled : bool;
  countingSystem : CountingSystem;
  minBet : Q;
  maxBet : Q;
  autoStandOn21 : bool;
  numHands : nat;
  dealerHoleCard : bool
}.

(** The settings object built by the constructor. *)
Definition initial : t :=
  mk 6 true CONFIG.BLACKJACK_PAYS true false true true false HiLo
     CONFIG.MIN_BET CONFIG.MAX_BET true 1 true.

(** The argument of [updateSettings]: an object holding any subset of
    the settings. *)
Record patch := mkPatch {
  p_deckCount : option nat;
  p_dealerHitsSoft17 : option bool;
  p_blackjackPays : option Q;
  p_doubleAfterSplit : option bool;
  p_resplitAces : option bool;
  p_surrenderAllowed : option bool;
  p_insuranceAllowed : option bool;
  p_countingEnabled : option bool;
  p_countingSystem : option CountingSystem;
  p_minBet : option Q;
  p_maxBet : option Q;
  p_autoStandOn21 : option bool;
  p_numHands : option nat;
  p_dealerHoleCard : option bool
}.

Definition no_change : patch :=
  mkPatch None None None None None None None None None None None None None
          None.

(** [{ ...settings, ...newSettings }] *)
Definition merge (s : t) (p : patch) : t :=
  mk (default (deckCount s) (p_deckCount p))
     (default (dealerHitsSoft17 s) (p_dealerHitsSoft17 p))
     (default (blackjackPays s) (p_blackjackPays p))
     (default (doubleAfterSplit s) (p_doubleAfterSplit p))
     (default (resplitAces s) (p_resplitAces p))
     (default (surrenderAllowed s) (p_surrenderAllowed p))
     (default (insuranceAllowed s) (p_insuranceAllowed p))
     (default (countingEnabled s) (p_countingEnabled p))
     (default (countingSystem s) (p_countingSystem p))
     (default (minBet s) (p_minBet p))
     (default (maxBet s) (p_maxBet p))
     (default (autoStandOn21 s) (p_autoStandOn21 p))
     (default (numHands s) (p_numHands p))
     (default (dealerHoleCard s) (p_dealerHoleCard p)).

End Settings.

Module Stats.

Record t := mk {
  handsPlayed : Z;
  handsWon : Z;
  handsLost : Z;
  handsPushed : Z;
  blackjacks : Z;
  totalWagered : Q;
  netProfit : Q
}.

Definition zero : t := mk 0 0 0 0 0 0%Q 0%Q.

Definition incr_handsPlayed (s : t) : t :=
  mk (handsPlayed s + 1) (handsWon s) (handsLost s) (handsPushed s)
     (blackjacks s) (totalWagered s) (netProfit s).

Definition incr_handsWon (s : t) : t :=
  mk (handsPlayed s) (handsWon s + 1) (handsLost s) (handsPushed s)
     (blackjacks s) (totalWagered s) (netProfit s).

Definition incr_handsLost (s : t) : t :=
  mk (handsPlayed s) (handsWon s) (handsLost s + 1) (handsPushed s)
     (blackjacks s) (totalWagered s) (netProfit s).

Definition incr_handsPushed (s : t) : t :=
  mk (handsPlayed s) (handsWon s) (handsLost s) (handsPushed s + 1)
     (blackjacks s) (totalWagered s) (netProfit s).

Definition incr_blackjacks (s : t) : t :=
  mk (handsPlayed s) (handsWon s) (handsLost s) (handsPushed s)
     (blackjacks s + 1) (totalWagered s) (netProfit s).

Definition add_totalWagered (a : Q) (s : t) : t :=
  mk (handsPlayed s) (handsWon s) (handsLost s) (handsPushed s)
     (blackjacks s) (totalWagered s + a)%Q (netProfit s).

Definition add_netProfit (a : Q) (s : t) : t :=
  mk (handsPlayed s) (handsWon s) (handsLost s) (handsPushed s)
     (blackjacks s) (totalWagered s) (netProfit s + a)%Q.

End Stats.

(** ** The round state machine ([class BlackjackGame]) *)

Module Game.

Record t := mk {
  deck : Deck.t;
  playerHands : list Hand.t;
  dealerHand : Hand.t;
  currentHandIndex : nat;
  state : GameState;
  balance : Q;
  currentBet : Q;
  settings : Settings.t;
  stats : Stats.t
}.

Definition set_deck (d : Deck.t) (g : t) : t :=
  mk d (playerHands g) (dealerHand g) (currentHandIndex g) (state g)
     (balance g) (currentBet g) (settings g) (stats g).

Definition set_playerHands (hs : list Hand.t) (g : t) : t :=
  mk (deck g) hs (dealerHand g) (currentHandIndex g) (state g)
     (balance g) (currentBet g) (settings g) (stats g).

Definition set_dealerHand (h : Hand.t) (g : t) : t :=
  mk (deck g) (playerHands g) h (currentHandIndex g) (state g)
     (balance g) (currentBet g) (settings g) (stats g).

Definition set_currentHandIndex (i : nat) (g : t) : t :=
  mk (deck g) (playerHands g) (dealerHand g) i (state g)
     (balance g) (currentBet g) (settings g) (stats g).

Definition set_state (s : GameState) (g : t) : t :=
  mk (deck g) (playerHands g) (dealerHand g) (currentHandIndex g) s
     (balance g) (currentBet g) (settings g) (stats g).

Definition set_balance (b : Q) (g : t) : t :=
  mk (deck g) (playerHands g) (dealerHand g) (currentHandIndex g) (state g)
     b (currentBet g) (settings g) (stats g).

Definition set_currentBet (b : Q) (g : t) : t :=
  mk (deck g) (playerHands g) (dealerHand g) (currentHandIndex g) (state g)
     (balance g) b (settings g) (stats g).

Definition set_settings (s : Settings.t) (g : t) : t :=
  mk (deck g) (playerHands g) (dealerHand g) (currentHandIndex g) (state g)
     (balance g) (currentBet g) s (stats g).

Definition set_stats (s : Stats.t) (g : t) : t :=
  mk (deck g) (playerHands g) (dealerHand g) (currentHandIndex g) (state g)
     (balance g) (currentBet g) (settings g) s.

(** The constructor, for an empty store ([loadAllData] finds nothing
    and leaves the defaults); [rand] feeds the first shuffle. *)
Definition new (rand : nat → nat) : t :=
  mk (Deck.shuffle rand (Deck.new 6)) [Hand.new] Hand.new 0 BETTING
     CONFIG.DEFAULT_BALANCE 0%Q Settings.initial Stats.zero.

(** [get currentHand]: [None] is [undefined]. *)
Definition currentHand (g : t) : option Hand.t :=
  playerHands g !! currentHandIndex g.

(** Writes a field of the hand object at index [i]. *)
Definition set_hand (i : nat) (h : Hand.t) (g : t) : t :=
  set_playerHands (<[i := h]> (playerHands g)) g.

Definition set_currentHand (h : Hand.t) (g : t) : t :=
  set_hand (currentHandIndex g) h g.

Definition placeBet (amount : Q) (g : t) : option (bool * t) :=
  if negb (bool_decide (state g = BETTING)) then Some (false, g)
  else if Qlt_bool amount (Settings.minBet (settings g))
          || Qlt_bool (Settings.maxBet (settings g)) amount
  then Some (false, g)
  else if Qlt_bool (balance g) amount then Some (false, g)
  else
    let g := set_currentBet amount g in
    let g := set_balance (balance g - amount)%Q g in
    hand0 ← playerHands g !! 0%nat;
    let g := set_hand 0 (Hand.set_bet amount hand0) g in
    let g := set_stats (Stats.add_totalWagered amount (stats g)) g in
    Some (true, g).

Definition endRound (g : t) : t := set_state GAME_OVER g.

(** The hand a card is dealt to: [this.currentHand] or
    [this.dealerHand]. *)
Inductive HandRef := CurrentHand | DealerHand.

Definition dealCardToHand (hand : HandRef) (faceUp : bool) (g : t)
    : option t :=
  let '(dealt, d) := Deck.deal (deck g) in
  let g := set_deck d g in
  card ← dealt;
  let card := setFaceUp faceUp card in
  g ← match hand with
      | CurrentHand =>
          h ← currentHand g; Some (set_currentHand (Hand.addCard card h) g)
      | DealerHand =>
          Some (set_dealerHand (Hand.addCard card (dealerHand g)) g)
      end;
  Some (if faceUp
        then set_deck (Deck.updateCount (Some card) (deck g)) g
        else g).

(** The three statements that turn the dealer's second card face up and
    count it; the source repeats them in [handleInsuranceDecision],
    [handleBlackjack] and twice in [dealerTurn]:
    [this.dealerHand.cards[1].faceUp = true;
     this.deck.updateCount(this.dealerHand.cards[1]);] *)
Definition revealHoleCard (g : t) : option t :=
  hole ← Hand.cards (dealerHand g) !! 1%nat;
  let hole := setFaceUp true hole in
  let g :=
    set_dealerHand
      (Hand.set_cards (<[1%nat := hole]> (Hand.cards (dealerHand g)))
         (dealerHand g)) g in
  Some (set_deck (Deck.updateCount (Some hole) (deck g)) g).

Definition handleBlackjack (g : t) : option t :=
  g ← revealHoleCard g;
  h ← currentHand g;
  let g :=
    if Hand.isBlackjack (dealerHand g) then
      set_stats (Stats.incr_handsPushed (stats g))
        (set_balance (balance g + Hand.bet h)%Q g)
    else
      let winnings :=
        (Hand.bet h * (1 + Settings.blackjackPays (settings g)))%Q in
      set_stats
        (Stats.add_netProfit (winnings - Hand.bet h)%Q
           (Stats.incr_blackjacks (Stats.incr_handsWon (stats g))))
        (set_balance (balance g + winnings)%Q g) in
  Some (endRound g).

Definition shouldDealerHit (g : t) : bool :=
  let v := Hand.getValue (dealerHand g) in
  if v <? 17 then true
  else if (v =? 17) && Hand.isSoft (dealerHand g)
          && Settings.dealerHitsSoft17 (settings g)
  then true
  else false.

(** One iteration of the [for] loop of [resolveHands] over
    (balance, stats, totalWinnings). *)
Definition resolveHand (dealerValue : Z) (dealerBusted : bool)
    (acc : Q * Stats.t * Q) (hand : Hand.t) : Q * Stats.t * Q :=
  let '(bal, st, totalWinnings) := acc in
  let playerValue := Hand.getValue hand in
  let bet := Hand.bet hand in
  let '(payout, st) :=
    if Hand.isSurrendered hand then ((bet / 2)%Q, st)
    else if Hand.isBusted hand then
      (0%Q, Stats.add_netProfit (- bet)%Q (Stats.incr_handsLost st))
    else if dealerBusted then
      ((bet * 2)%Q, Stats.add_netProfit bet (Stats.incr_handsWon st))
    else if dealerValue <? playerValue then
      ((bet * 2)%Q, Stats.add_netProfit bet (Stats.incr_handsWon st))
    else if playerValue <? dealerValue then
      (0%Q, Stats.add_netProfit (- bet)%Q (Stats.incr_handsLost st))
    else (bet, Stats.incr_handsPushed st) in
  ((bal + payout)%Q, st, (totalWinnings + (payout - bet))%Q).

Definition resolveHands (g : t) : t :=
  let g := set_state PAYOUT g in
  let dealerValue := Hand.getValue (dealerHand g) in
  let dealerBusted := Hand.isBusted (dealerHand g) in
  let '(bal, st, totalWinnings) :=
    foldl (resolveHand dealerValue dealerBusted)
          (balance g, stats g, 0%Q) (playerHands g) in
  let g := set_stats (Stats.incr_handsPlayed st) (set_balance bal g) in
  endRound g.

(** The arguments [resolveHands] passes to [notifyResult]: the overall
    result and the signed total it reports for the round. *)
Definition resolveHands_report (g : t) : ResultType.t * Q :=
  let dealerValue := Hand.getValue (dealerHand g) in
  let dealerBusted := Hand.isBusted (dealerHand g) in
  let '(_, _, totalWinnings) :=
    foldl (resolveHand dealerValue dealerBusted)
          (balance g, stats g, 0%Q) (playerHands g) in
  (if Qlt_bool 0 totalWinnings then ResultType.WIN
   else if Qlt_bool totalWinnings 0 then ResultType.LOSE
   else ResultType.PUSH,
   totalWinnings).

(** [while (this.shouldDealerHit()) dealCardToHand(dealerHand, true)].
    Every iteration takes a card from the shoe and dealing from an
    empty shoe throws, so the loop runs at most once more than there
    are cards: [fuel] above the size of the draw pile is never used
    up. *)
Fixpoint dealerDraw (fuel : nat) (g : t) : option t :=
  if shouldDealerHit g then
    match fuel with
    | O => None
    | S fuel' => g ← dealCardToHand DealerHand true g; dealerDraw fuel' g
    end
  else Some g.

Definition dealerTurn (g : t) : option t :=
  let allBustedOrSurrendered :=
    forallb (λ h, Hand.isBusted h || Hand.isSurrendered h) (playerHands g) in
  if allBustedOrSurrendered then
    g ← revealHoleCard g;
    Some (resolveHands g)
  else
    let g := set_state DEALER_TURN g in
    g ← revealHoleCard g;
    g ← dealerDraw (S (length (Deck.cards (deck g)))) g;
    Some (resolveHands g).

Definition handleHandComplete (g : t) : option t :=
  if bool_decide (Z.of_nat (currentHandIndex g)
                  < Z.of_nat (length (playerHands g)) - 1) then
    let g := set_currentHandIndex (S (currentHandIndex g)) g in
    h ← currentHand g;
    if bool_decide (length (Hand.cards h) = 1%nat)
    then dealCardToHand CurrentHand true g
    else Some g
  else dealerTurn g.

Definition deal (rand : nat → nat) (g : t) : option t :=
  if Qeq_bool (currentBet g) 0 then Some g
  else
    let g :=
      if Deck.needsReshuffle (deck g)
      then set_deck (Deck.reshuffle rand (deck g)) g else g in
    let g := set_state DEALING g in
    let g := set_playerHands [Hand.set_bet (currentBet g) Hand.new] g in
    let g := set_dealerHand (Hand.clear (dealerHand g)) g in
    let g := set_currentHandIndex 0 g in
    g ← dealCardToHand CurrentHand true g;
    g ← dealCardToHand DealerHand true g;
    g ← dealCardToHand CurrentHand true g;
    g ← dealCardToHand DealerHand
          (negb (Settings.dealerHoleCard (settings g))) g;
    dealerUpCard ← Hand.cards (dealerHand g) !! 0%nat;
    if isAce dealerUpCard && Settings.insuranceAllowed (settings g)
    then Some (set_state INSURANCE g)
    else
      h ← currentHand g;
      if Hand.isBlackjack h then handleBlackjack g
      else Some (set_state PLAYER_TURN g).

Definition handleInsuranceDecision (takeInsurance : bool) (g : t)
    : option t :=
  if negb (bool_decide (state g = INSURANCE)) then Some g
  else
    g ← (if takeInsurance then
           h ← currentHand g;
           let insuranceAmount := (Hand.bet h / 2)%Q in
           if Qle_bool insuranceAmount (balance g) then
             let g := set_balance (balance g - insuranceAmount)%Q g in
             Some (set_currentHand
                     (Hand.set_insuranceBet insuranceAmount h) g)
           else Some g
         else Some g);
    if Hand.isBlackjack (dealerHand g) then
      g ← revealHoleCard g;
      h ← currentHand g;
      let g :=
        if Qlt_bool 0 (Hand.insuranceBet h)
        then set_balance (balance g + Hand.insuranceBet h * 3)%Q g
        else g in
      let g :=
        if Hand.isBlackjack h then
          set_stats (Stats.incr_handsPushed (stats g))
            (set_balance (balance g + Hand.bet h)%Q g)
        else
          set_stats
            (Stats.add_netProfit (- Hand.bet h)%Q
               (Stats.incr_handsLost (stats g))) g in
      Some (endRound g)
    else
      h ← currentHand g;
      if Hand.isBlackjack h then handleBlackjack g
      else Some (set_state PLAYER_TURN g).

Definition hit (g : t) : option t :=
  if negb (bool_decide (state g = PLAYER_TURN)) then Some g
  else
    g ← dealCardToHand CurrentHand true g;
    h ← currentHand g;
    if Hand.isBusted h then handleHandComplete g
    else if (Hand.getValue h =? 21) && Settings.autoStandOn21 (settings g)
    then handleHandComplete (set_currentHand (Hand.set_isStood true h) g)
    else Some g.

Definition stand (g : t) : option t :=
  if negb (bool_decide (state g = PLAYER_TURN)) then Some g
  else
    h ← currentHand g;
    handleHandComplete (set_currentHand (Hand.set_isStood true h) g).

Definition double (g : t) : option t :=
  if negb (bool_decide (state g = PLAYER_TURN)) then Some g
  else
    h ← currentHand g;
    if negb (Hand.canDouble false h) then Some g
    else
      let additionalBet := Hand.bet h in
      if Qlt_bool (balance g) additionalBet then Some g
      else
        let g := set_balance (balance g - additionalBet)%Q g in
        let h := Hand.set_isDoubled true (Hand.set_bet (Hand.bet h * 2)%Q h) in
        let g := set_currentHand h g in
        let g := set_stats (Stats.add_totalWagered additionalBet (stats g)) g in
        g ← dealCardToHand CurrentHand true g;
        h ← currentHand g;
        handleHandComplete (set_currentHand (Hand.set_isStood true h) g).

Definition split (g : t) : option t :=
  if negb (bool_decide (state g = PLAYER_TURN)) then Some g
  else
    h ← currentHand g;
    if negb (Hand.canSplit h) then Some g
    else
      let additionalBet := Hand.bet h in
      if Qlt_bool (balance g) additionalBet then Some g
      else
        let g := set_balance (balance g - additionalBet)%Q g in
        let g := set_stats (Stats.add_totalWagered additionalBet (stats g)) g in
        popped ← last (Hand.cards h);
        let h := Hand.set_cards (removelast (Hand.cards h)) h in
        let newHand :=
          Hand.addCard popped
            (Hand.set_isSplit true (Hand.set_bet additionalBet Hand.new)) in
        let h := Hand.set_isSplit true h in
        let g := set_currentHand h g in
        let i := S (currentHandIndex g) in
        let g :=
          set_playerHands
            (take i (playerHands g) ++ newHand :: drop i (playerHands g)) g in
        dealCardToHand CurrentHand true g.

Definition surrender (g : t) : option t :=
  if negb (bool_decide (state g = PLAYER_TURN)) then Some g
  else
    h ← currentHand g;
    if negb (bool_decide (length (Hand.cards h) = 2%nat)) then Some g
    else if negb (Settings.surrenderAllowed (settings g)) then Some g
    else
      let g := set_currentHand (Hand.set_isSurrendered true h) g in
      let returnAmount := (Hand.bet h / 2)%Q in
      let g := set_balance (balance g + returnAmount)%Q g in
      handleHandComplete g.

Definition newRound (g : t) : t :=
  let g := set_playerHands [Hand.new] g in
  let g := set_dealerHand (Hand.clear (dealerHand g)) g in
  let g := set_currentHandIndex 0 g in
  let g := set_currentBet 0%Q g in
  set_state BETTING g.

Definition reshuffle (rand : nat → nat) (g : t) : t :=
  set_deck (Deck.reshuffle rand (deck g)) g.

Definition addChips (amount : Q) (g : t) : t :=
  set_balance (balance g + amount)%Q g.

(** *** Action checks *)

Definition canHit (g : t) : option bool :=
  if negb (bool_decide (state g = PLAYER_TURN)) then Some false
  else h ← currentHand g; Some (negb (Hand.isStood h) && negb (Hand.isBusted h)).

Definition canStand (g : t) : option bool := canHit g.

Definition canDouble (g : t) : option bool :=
  if negb (bool_decide (state g = PLAYER_TURN)) then Some false
  else
    h ← currentHand g;
    Some (Hand.canDouble false h && Qle_bool (Hand.bet h) (balance g)
          && negb (Hand.isStood h)).

Definition canSplit (g : t) : option bool :=
  if negb (bool_decide (state g = PLAYER_TURN)) then Some false
  else
    h ← currentHand g;
    if negb (Hand.canSplit h) then Some false
    else if Qlt_bool (balance g) (Hand.bet h) then Some false
    else if bool_decide (4 ≤ length (playerHands g))%nat then Some false
    else Some true.

Definition canSurrender (g : t) : option bool :=
  if negb (bool_decide (state g = PLAYER_TURN)) then Some false
  else
    if negb (Settings.surrenderAllowed (settings g)) then Some false
    else
      h ← currentHand g;
      Some (bool_decide (length (Hand.cards h) = 2%nat)
            && negb (Hand.isSplit h)).

Definition updateSettings (rand : nat → nat) (newSettings : Settings.patch)
    (g : t) : t :=
  let g := set_settings (Settings.merge (settings g) newSettings) g in
  let g :=
    match Settings.p_deckCount newSettings with
    | Some count => set_deck (Deck.setDeckCount rand count (deck g)) g
    | None => g
    end in
  match Settings.p_countingSystem newSettings with
  | Some s => set_deck (Deck.setCountingSystem s (deck g)) g
  | None => g
  end.

End Game.

(** ** The deviation advisor ([DEVIATION_INDICES], [checkDeviationIndex],
       [getDeviationInfo]) *)

Module Strategy.

Inductive Action := HIT | STAND | DOUBLE | SPLIT | SURRENDER | TAKE_INSURANCE.

Global Instance Action_eq_dec : EqDecision Action.
Proof. solve_decision. Defined.

(** An entry of the table; [belowAction] and [normal] are absent from
    some entries. *)
Record Deviation := mkDev {
  threshold : Z;
  action : Action;
  belowAction : option Action;
  normal : option Action
}.

Definition DEVIATION_INDICES : gmap string Deviation :=
  list_to_map
    [ ("insurance", mkDev 3 TAKE_INSURANCE None None);
      ("16_10", mkDev 0 STAND None (Some HIT));
      ("15_10", mkDev 4 STAND None (Some HIT));
      ("10_10", mkDev 4 DOUBLE None (Some HIT));
      ("12_3", mkDev 2 STAND None (Some HIT));
      ("12_2", mkDev 3 STAND None (Some HIT));
      ("11_11", mkDev 1 DOUBLE None (Some HIT));
      ("9_2", mkDev 1 DOUBLE None (Some HIT));
      ("10_11", mkDev 4 DOUBLE None (Some HIT));
      ("9_7", mkDev 3 DOUBLE None (Some HIT));
      ("16_9", mkDev 5 STAND None (Some HIT));
      ("13_2", mkDev (-1) STAND None (Some STAND));
      ("12_4", mkDev 0 STAND (Some HIT) (Some STAND));
      ("12_5", mkDev (-2) STAND (Some HIT) (Some STAND));
      ("12_6", mkDev (-1) STAND (Some HIT) (Some STAND));
      ("13_3", mkDev (-2) STAND (Some HIT) (Some STAND));
      ("TT_5", mkDev 5 SPLIT None (Some STAND));
      ("TT_6", mkDev 4 SPLIT None (Some STAND)) ].

(** [playerHand.canSplit() && playerHand.cards[0].value === 10] *)
Definition isTenPair (playerHand : Hand.t) : bool :=
  Hand.canSplit playerHand
  && match Hand.cards playerHand !! 0%nat with
     | Some c => value c =? 10
     | None => false
     end.

Definition checkDeviationIndex (playerHand : Hand.t) (dealerValue trueCount : Z)
    (canDouble canSplit : bool) : option Action :=
  let playerValue := Hand.getValue playerHand in
  let tt :=
    if isTenPair playerHand && canSplit then
      match DEVIATION_INDICES !! ("TT_" +:+ pretty dealerValue) with
      | Some dev =>
          if threshold dev <=? trueCount then Some (action dev) else None
      | None => None
      end
    else None in
  match tt with
  | Some a => Some a
  | None =>
      match DEVIATION_INDICES
              !! (pretty playerValue +:+ "_" +:+ pretty dealerValue) with
      | Some dev =>
          if bool_decide (is_Some (belowAction dev))
             && (trueCount <? threshold dev)
          then belowAction dev
          else if threshold dev <=? trueCount then
            if bool_decide (action dev = DOUBLE) && negb canDouble then None
            else if bool_decide (action dev = SPLIT) && negb canSplit
            then None
            else Some (action dev)
          else None
      | None => None
      end
  end.

(** The object returned by [getDeviationInfo]; the last three fields
    are absent when [isDeviation] is false. *)
Record DeviationInfo := mkInfo {
  isDeviation : bool;
  info_threshold : option Z;
  info_action : option Action;
  reason : option string
}.

Definition noDeviation : DeviationInfo := mkInfo false None None None.

(** [${x >= 0 ? '+' : ''}${x}] *)
Definition signed (x : Z) : string :=
  (if 0 <=? x then "+" else "") +:+ pretty x.

Definition reasonText (trueCount : Z) (cmp : string) (thr : Z) : string :=
  "TC " +:+ signed trueCount +:+ " " +:+ cmp +:+ " " +:+ signed thr.

Definition getDeviationInfo (playerHand : Hand.t) (dealerValue trueCount : Z)
    : DeviationInfo :=
  let playerValue := Hand.getValue playerHand in
  let tt :=
    if isTenPair playerHand then
      match DEVIATION_INDICES !! ("TT_" +:+ pretty dealerValue) with
      | Some dev =>
          if threshold dev <=? trueCount then
            Some (mkInfo true (Some (threshold dev)) (Some (action dev))
                    (Some (reasonText trueCount ">=" (threshold dev))))
          else None
      | None => None
      end
    else None in
  match tt with
  | Some info => info
  | None =>
      match DEVIATION_INDICES
              !! (pretty playerValue +:+ "_" +:+ pretty dealerValue) with
      | Some dev =>
          if bool_decide (is_Some (belowAction dev))
             && (trueCount <? threshold dev)
          then
            mkInfo true (Some (threshold dev)) (belowAction dev)
              (Some (reasonText trueCount "<" (threshold dev)))
          else if threshold dev <=? trueCount then
            mkInfo true (Some (threshold dev)) (Some (action dev))
              (Some (reasonText trueCount ">=" (threshold dev)))
          else noDeviation
      | None => noDeviation
      end
  end.

End Strategy.

(** * Vocabulary of the properties

    Definitions the statements below are phrased with: the spec's
    reading of a hand's value, hands built by [addCard], and the
    concrete cards, hands and rounds used as examples. *)

(** The sum of the cards' blackjack values. *)
Definition sumValues (cs : list Card) : Z :=
  foldr (λ c acc, value c + acc) 0 cs.

(** The number of aces among the cards. *)
Definition countAces (cs : list Card) : nat :=
  length (filter (λ c, rank c = RA) cs).


(** A hand built from the empty hand by [addCard] calls only. *)
Definition build (cs : list Card) : Hand.t :=
  foldl (λ h c, Hand.addCard c h) Hand.new cs.



Definition A9 : list Card := [createCard Spades RA; createCard Hearts R9].


(** A one-deck shoe from which one card has been dealt. *)
Definition shoe_one_dealt : Deck.t := (Deck.deal (Deck.new 1)).2.

(** A random source that always delivers 0. *)
Definition rand0 : nat → nat := λ _, 0%nat.

(** A random source for the constructor's shuffle of the 312-card
    shoe: the first draws are [picks], every later draw leaves its card
    in place.  The draw at step [k] fills position [311 - k], the
    [k]-th card to be dealt, with the card then at the drawn index; in
    a fresh shoe the card of deck [d], suit [s], rank [r] (counted from
    0 in [SUITS] and [RANKS]) is at index [52*d + 13*s + r]. *)
Definition rand_picks (picks : list nat) : nat → nat :=
  λ k, default (311 - k)%nat (picks !! k).

(** A settings object holding only [dealerHoleCard: false]. *)
Definition faceUpDealer : Settings.patch :=
  Settings.mkPatch None None None None None None None None None None None
    None None (Some false).

(** Bet 100 on a new game and deal: player 10, 7 against dealer 6 up
    and 9 in the hole. *)
Definition round_17_vs_6 : option Game.t :=
  '(_, g) ← Game.placeBet 100 (Game.new (rand_picks [9; 5; 6; 8]%nat));
  Game.deal rand0 g.

(** The state that round is in once dealt. *)
Definition dealt_17_vs_6 : Game.t := default (Game.new rand0) round_17_vs_6.

(** Bet 100 on a new game and deal: player 10, 7 against dealer ace up
    and 5 in the hole. *)
Definition round_17_vs_ace : option Game.t :=
  '(_, g) ← Game.placeBet 100 (Game.new (rand_picks [9; 0; 6; 4]%nat));
  Game.deal rand0 g.

(** The state that round is in once dealt: the insurance decision. *)
Definition dealt_17_vs_ace : Game.t :=
  default (Game.new rand0) round_17_vs_ace.

(** Bet 100 on a new game and deal: player ace, king against dealer
    ace up and 5 in the hole. *)
Definition round_blackjack_vs_ace : option Game.t :=
  '(_, g) ← Game.placeBet 100 (Game.new (rand_picks [13; 0; 12; 4]%nat));
  Game.deal rand0 g.

(** The state that round is in once dealt: the insurance decision. *)
Definition dealt_blackjack_vs_ace : Game.t :=
  default (Game.new rand0) round_blackjack_vs_ace.

(** Bet 10 on a new game, deal a pair of eights against dealer 6, and
    split three times, drawing an eight each time: four hands. *)
Definition round_four_hands : option Game.t :=
  '(_, g) ← Game.placeBet 10
              (Game.new (rand_picks [7; 5; 20; 8; 33; 46; 59]%nat));
  g ← Game.deal rand0 g;
  g ← Game.split g;
  g ← Game.split g;
  Game.split g.

(** The state of that round, four hands on the table. *)
Definition four_hands : Game.t := default (Game.new rand0) round_four_hands.

(** With the hole card dealt face up ([dealerHoleCard: false]): bet 100
    on a new game, deal player 10, 7 against dealer 9 and king, and
    stand. *)
Definition round_all_face_up : option Game.t :=
  '(_, g) ← Game.placeBet 100
              (Game.updateSettings rand0 faceUpDealer
                 (Game.new (rand_picks [9; 8; 6; 12]%nat)));
  g ← Game.deal rand0 g;
  Game.stand g.

(** The state that round ends in. *)
Definition all_face_up : Game.t := default (Game.new rand0) round_all_face_up.

(** The cards held by the player's hands and the dealer's hand. *)
Definition cardsOnTable (g : Game.t) : list Card :=
  concat (Hand.cards <$> Game.playerHands g) ++ Hand.cards (Game.dealerHand g).

(** The sum of a counting system's weights over the face-up cards of
    a list. *)
Definition faceUpWeight (s : CountingSystem) (cs : list Card) : Z :=
  foldr (λ c acc, (if faceUp c then COUNTING_SYSTEMS s (rank c) else 0) + acc)
        0 cs.

(** The running count less the weights of the face-up cards on the
    table: what had been counted before this round's cards. *)
Definition countOffset (g : Game.t) : Z :=
  Deck.runningCount (Game.deck g)
  - faceUpWeight (Deck.countingSystem (Game.deck g)) (cardsOnTable g).

(** A dealer's hand of two cards, the second one face down. *)
Definition holeHidden (dealer : Hand.t) : Prop :=
  ∃ up hole : Card, Hand.cards dealer = [up; hole] ∧ faceUp hole = false.

(** A step that keeps the offset and does not touch the dealer's
    hand. *)
Definition quiet (g g' : Game.t) : Prop :=
  countOffset g' = countOffset g
  ∧ Game.dealerHand g' = Game.dealerHand g.

(** A step that keeps the offset and either ends the round or does
    not touch the dealer's hand. *)
Definition settled (g g' : Game.t) : Prop :=
  countOffset g' = countOffset g
  ∧ (Game.state g' = GAME_OVER ∨ Game.dealerHand g' = Game.dealerHand g).

(** The phases in which the engine waits for the player. *)
Definition awaitingPlayer (g : Game.t) : Prop :=
  Game.state g = INSURANCE ∨ Game.state g = PLAYER_TURN.

(** The player's moves. *)
Inductive Move :=
  | Hit | Stand | Double | Split | Surrender
  | InsuranceDecision (takeInsurance : bool).

Definition play (m : Move) (g : Game.t) : option Game.t :=
  match m with
  | Hit => Game.hit g
  | Stand => Game.stand g
  | Double => Game.double g
  | Split => Game.split g
  | Surrender => Game.surrender g
  | InsuranceDecision takeInsurance =>
      Game.handleInsuranceDecision takeInsurance g
  end.







(** * Properties *)

(** ** Hands: value and bust flag *)

Lemma tally_from (cs : list Card) (v : Z) (a : nat) :
  foldl (λ '(v, aces) card,
           (v + value card, if isAce card then S aces else aces))
        (v, a) cs
  = (v + sumValues cs, (a + countAces cs)%nat).
Proof.
  revert v a. induction cs as [|c cs IH]; intros v a; simpl.
  - unfold countAces; simpl. f_equal; lia.
  - rewrite IH. unfold countAces, isAce. rewrite filter_cons.
    destruct (decide (rank c = RA)) as [Hc|Hc].
    + rewrite bool_decide_eq_true_2 by done. simpl. f_equal; lia.
    + rewrite bool_decide_eq_false_2 by done. f_equal; lia.
Qed.

Lemma tally_spec (cs : list Card) :
  Hand.tally cs = (sumValues cs, countAces cs).
Proof. unfold Hand.tally. by rewrite tally_from. Qed.

Lemma sumValues_app (cs1 cs2 : list Card) :
  sumValues (cs1 ++ cs2) = sumValues cs1 + sumValues cs2.
Proof. induction cs1 as [|c cs1 IH]; simpl; lia. Qed.

Lemma countAces_app (cs1 cs2 : list Card) :
  countAces (cs1 ++ cs2) = (countAces cs1 + countAces cs2)%nat.
Proof. unfold countAces. by rewrite filter_app, length_app. Qed.

(** The loop stops after [k] reductions: the first [k] at which the
    total is at most 21, or all the aces. *)
Lemma reduce_spec (aces : nat) (v : Z) :
  ∃ k : nat,
    (k ≤ aces)%nat
    ∧ Hand.reduce v aces = v - 10 * Z.of_nat k
    ∧ (∀ j : nat, (j < k)%nat → 21 < v - 10 * Z.of_nat j)
    ∧ ((k < aces)%nat → v - 10 * Z.of_nat k ≤ 21).
Proof.
  revert v. induction aces as [|a IH]; intros v; simpl.
  - exists O. repeat split; try lia.
  - destruct (21 <? v) eqn:Hv.
    + apply Z.ltb_lt in Hv.
      destruct (IH (v - 10)) as (k & Hk & Hr & Hlt & Hle).
      exists (S k). split; [lia|]. split; [lia|]. split.
      * intros [|j] Hj; [lia|]. specialize (Hlt j). lia.
      * intros Hk'. lia.
    + apply Z.ltb_ge in Hv. exists O. repeat split; try lia.
Qed.

Lemma reduce_le (aces : nat) (v : Z) : Hand.reduce v aces ≤ v.
Proof. destruct (reduce_spec aces v) as (k & _ & -> & _). lia. Qed.

Lemma reduce_all (aces : nat) (v : Z) :
  21 < v - 10 * Z.of_nat aces → Hand.reduce v aces = v - 10 * Z.of_nat aces.
Proof.
  revert v. induction aces as [|a IH]; intros v Hv; simpl; [lia|].
  destruct (21 <? v) eqn:Hlt; [|apply Z.ltb_ge in Hlt; lia].
  rewrite IH by lia. lia.
Qed.

Lemma reduce_bust (aces : nat) (v : Z) :
  21 < Hand.reduce v aces → Hand.reduce v aces = v - 10 * Z.of_nat aces.
Proof.
  revert v. induction aces as [|a IH]; intros v; simpl; [lia|].
  destruct (21 <? v) eqn:Hlt; [|apply Z.ltb_ge in Hlt; lia].
  intros H. rewrite IH by done. lia.
Qed.

Lemma getValue_spec (h : Hand.t) :
  Hand.getValue h
  = Hand.reduce (sumValues (Hand.cards h)) (countAces (Hand.cards h)).
Proof. unfold Hand.getValue. by rewrite tally_spec. Qed.

Lemma value_bounds (c : Card) : 2 ≤ value c ≤ 11.
Proof. unfold value. destruct (rank c); simpl; lia. Qed.

Lemma value_ace (c : Card) : rank c = RA → value c = 11.
Proof. unfold value. by intros ->. Qed.


Lemma build_snoc (cs : list Card) (c : Card) :
  build (cs ++ [c]) = Hand.addCard c (build cs).
Proof. unfold build. by rewrite foldl_app. Qed.

Lemma addCard_cards (c : Card) (h : Hand.t) :
  Hand.cards (Hand.addCard c h) = Hand.cards h ++ [c].
Proof.
  unfold Hand.addCard, Hand.checkBust.
  by destruct (21 <? _).
Qed.

Lemma addCard_isBusted (c : Card) (h : Hand.t) :
  Hand.isBusted (Hand.addCard c h)
  = Hand.isBusted h || (21 <? Hand.getValue (Hand.addCard c h)).
Proof.
  unfold Hand.addCard, Hand.checkBust.
  destruct (21 <? Hand.getValue (Hand.set_cards _ h)) eqn:Hv; simpl.
  - unfold Hand.getValue in *. simpl in *. rewrite Hv. by rewrite orb_true_r.
  - unfold Hand.getValue in *. simpl in *. rewrite Hv. by rewrite orb_false_r.
Qed.

(** Past 21 every ace already counts 1, so one more card adds at least
    1 to the value. *)
Lemma getValue_addCard_busted (c : Card) (h : Hand.t) :
  21 < Hand.getValue h →
  Hand.getValue h + 1 ≤ Hand.getValue (Hand.addCard c h).
Proof.
  rewrite !getValue_spec, addCard_cards, sumValues_app, countAces_app.
  intros Hb. pose proof (reduce_bust _ _ Hb) as Hall. rewrite Hall in *.
  assert (Hc : 1 ≤ sumValues [c] - 10 * Z.of_nat (countAces [c])).
  { unfold countAces, sumValues. simpl. rewrite filter_cons, filter_nil.
    pose proof (value_bounds c).
    destruct (decide (rank c = RA)) as [Ha|Ha]; simpl.
    - rewrite (value_ace c Ha). lia.
    - unfold value. destruct (rank c); simpl; lia || done. }
  rewrite reduce_all; lia.
Qed.

Lemma build_isBusted (cs : list Card) :
  Hand.isBusted (build cs) = true ↔ 21 < Hand.getValue (build cs).
Proof.
  induction cs as [|c cs IH] using rev_ind.
  - by vm_compute.
  - rewrite build_snoc, addCard_isBusted, orb_true_iff, Z.ltb_lt.
    split; [|by right].
    intros [Hb|Hv]; [|done].
    apply IH in Hb. pose proof (getValue_addCard_busted c _ Hb). lia.
Qed.

(** C10, as stated, fails on a soft hand: a 5 added to A,9 takes the
    value from 20 down to 15. *)
Lemma addCard_can_lower_value :
  Hand.getValue (build A9) = 20
  ∧ Hand.getValue (Hand.addCard (createCard Diamonds R5) (build A9)) = 15
  ∧ ¬ (Hand.getValue (build A9) + 1
       ≤ Hand.getValue (Hand.addCard (createCard Diamonds R5) (build A9))).
Proof. by vm_compute. Qed.

(** C10, amended.  For a hand built from empty by [addCard] calls,
    after each [addCard] the flag [isBusted] is true exactly when
    [getValue] exceeds 21; once the value exceeds 21 each added card
    raises it by at least 1, so a busted hand stays busted. *)
Theorem isBusted_iff_over_21 (cs : list Card) (c : Card) :
  let h := build cs in
  let h' := Hand.addCard c h in
  (Hand.isBusted h' = true ↔ 21 < Hand.getValue h')
  ∧ (21 < Hand.getValue h → Hand.getValue h + 1 ≤ Hand.getValue h')
  ∧ (Hand.isBusted h = true → Hand.isBusted h' = true).
Proof.
  intros h h'. split; [|split].
  - subst h h'. rewrite <- build_snoc. apply build_isBusted.
  - apply getValue_addCard_busted.
  - intros Hb. subst h'. rewrite addCard_isBusted, Hb. done.
Qed.

(** ** The shoe: shuffle *)

Lemma swap_Permutation (i j : nat) (l : list Card) : Deck.swap i j l ≡ₚ l.
Proof.
  unfold Deck.swap.
  destruct (l !! i) as [ai|] eqn:Hi; [|done].
  destruct (l !! j) as [aj|] eqn:Hj; [|done].
  by apply Permutation_insert_swap.
Qed.

Lemma shuffle_loop_Permutation (rand : nat → nat) (k i : nat) (l : list Card) :
  Deck.shuffle_loop rand k i l ≡ₚ l.
Proof.
  revert k l. induction i as [|i IH]; intros k l; simpl; [done|].
  rewrite IH. apply swap_Permutation.
Qed.

Lemma decks_length (n : nat) : length (Deck.decks n) = (n * 52)%nat.
Proof.
  induction n as [|n IH]; [done|].
  change (Deck.decks (S n)) with (Deck.one_deck ++ Deck.decks n).
  rewrite length_app, IH. done.
Qed.

(** C4, as stated, fails when cards lie in the discard pile: [shuffle]
    empties that pile without returning its cards, so a one-deck shoe
    shuffled after one deal is left with 51 cards. *)
Lemma shuffle_drops_discard_pile :
  Deck.deckCount shoe_one_dealt = 1%nat
  ∧ length (Deck.dealtCards shoe_one_dealt) = 1%nat
  ∧ length (Deck.cards (Deck.shuffle rand0 shoe_one_dealt)) = 51%nat
  ∧ ¬ (Deck.cards (Deck.shuffle rand0 shoe_one_dealt)
       ≡ₚ Deck.decks (Deck.deckCount shoe_one_dealt)).
Proof.
  split; [done|]. split; [done|]. split; [by vm_compute|].
  intros Hp. apply Permutation_length in Hp. by vm_compute in Hp.
Qed.

(** C4, amended.  For every shoe state and every sequence of random
    values, [shuffle] leaves in the draw pile a permutation of the draw
    pile it found and resets the discard pile and the running count;
    so the draw pile is a permutation of the exact [deckCount*52]
    cards when [shuffle] follows [initialize], and of the draw and
    discard piles together when it runs inside [reshuffle], which
    merges them first. *)
Theorem shuffle_permutes_draw_pile (rand : nat → nat) (d : Deck.t) :
  Deck.cards (Deck.shuffle rand d) ≡ₚ Deck.cards d
  ∧ Deck.dealtCards (Deck.shuffle rand d) = []
  ∧ Deck.runningCount (Deck.shuffle rand d) = 0
  ∧ Deck.cards (Deck.shuffle rand (Deck.initialize d))
    ≡ₚ Deck.decks (Deck.deckCount d)
  ∧ length (Deck.cards (Deck.shuffle rand (Deck.initialize d)))
    = (Deck.deckCount d * 52)%nat
  ∧ Deck.cards (Deck.reshuffle rand d) ≡ₚ Deck.cards d ++ Deck.dealtCards d.
Proof.
  assert (Hs : ∀ d', Deck.cards (Deck.shuffle rand d') ≡ₚ Deck.cards d').
  { intros d'. apply shuffle_loop_Permutation. }
  split; [apply Hs|]. split; [done|]. split; [done|].
  split; [apply (Hs (Deck.initialize d))|]. split.
  - rewrite (Hs (Deck.initialize d)). apply decks_length.
  - unfold Deck.reshuffle. by rewrite Hs.
Qed.

(** ** The advisor: decision and display *)



(** A pair of ten-valued cards is worth 20. *)
Lemma isTenPair_value (h : Hand.t) :
  Strategy.isTenPair h = true → Hand.getValue h = 20.
Proof.
  unfold Strategy.isTenPair, Hand.canSplit, Hand.getValue, value.
  destruct (Hand.cards h) as [|c0 [|c1 [|c2 cs]]]; try done.
  simpl. unfold Hand.tally, isAce, value. simpl.
  intros [Hrank Hten]%andb_true_iff. apply bool_decide_eq_true in Hrank.
  rewrite <- Hrank. by destruct (rank c0).
Qed.

(** The table has no entry for a total of 20. *)
Lemma no_deviation_on_20 (dealerValue : Z) :
  Strategy.DEVIATION_INDICES !! (pretty 20 +:+ "_" +:+ pretty dealerValue)
  = None.
Proof.
  change (pretty 20) with "20".
  apply not_elem_of_list_to_map_1. simpl.
  rewrite !not_elem_of_cons. repeat split; try discriminate.
  apply not_elem_of_nil.
Qed.

(** Whatever the legality flags, a deviation that [checkDeviationIndex]
    returns is the one [getDeviationInfo] reports. *)
Lemma checkDeviationIndex_reported
    (h : Hand.t) (dealerValue trueCount : Z) (canDouble canSplit : bool)
    (a : Strategy.Action) :
  Strategy.checkDeviationIndex h dealerValue trueCount canDouble canSplit
  = Some a →
  Strategy.isDeviation (Strategy.getDeviationInfo h dealerValue trueCount)
  = true
  ∧ Strategy.info_action (Strategy.getDeviationInfo h dealerValue trueCount)
    = Some a.
Proof.
  unfold Strategy.getDeviationInfo, Strategy.checkDeviationIndex.
  destruct (Strategy.isTenPair h) eqn:Hpair.
  - rewrite (isTenPair_value h Hpair), (no_deviation_on_20 dealerValue).
    generalize (Strategy.DEVIATION_INDICES !! ("TT_" +:+ pretty dealerValue)).
    intros tenTen. cbv zeta.
    destruct canSplit; cbn [andb]; [|discriminate].
    destruct tenTen as [dt|]; [|discriminate].
    destruct (Strategy.threshold dt <=? trueCount); [|discriminate].
    by intros [= <-].
  - generalize (Strategy.DEVIATION_INDICES
                  !! (pretty (Hand.getValue h) +:+ "_" +:+ pretty dealerValue)).
    intros regular. cbv zeta. cbn [andb].
    destruct regular as [[thr act below normal]|]; [|discriminate].
    cbn [Strategy.threshold Strategy.action Strategy.belowAction].
    destruct (bool_decide (is_Some below) && (trueCount <? thr)).
    { by intros ->. }
    destruct (thr <=? trueCount); [|discriminate].
    repeat case_match; first [discriminate | by intros [= <-]].
Qed.

(** ** The round state machine *)


Lemma Qlt_bool_false (a b : Q) : Qlt_bool a b = false ↔ (b <= a)%Q.
Proof.
  unfold Qlt_bool. rewrite negb_false_iff. apply Qle_bool_iff.
Qed.



(** C1 fails on the code: a surrendered stake is refunded twice.  When
    the player's only hand surrenders, [surrender] adds half the stake
    to the balance and [resolveHands] adds the same half again as the
    hand's payout, so the round ends with the whole stake returned
    (the balance is back where it was before the stake was deducted,
    not half a stake lower), while the total the round reports is a
    loss of half the stake. *)
Theorem surrender_refunds_stake_twice (g : Game.t) (h : Hand.t) :
  Game.state g = PLAYER_TURN →
  Game.playerHands g = [h] →
  Game.currentHandIndex g = 0%nat →
  length (Hand.cards h) = 2%nat →
  Settings.surrenderAllowed (Game.settings g) = true →
  is_Some (Hand.cards (Game.dealerHand g) !! 1%nat) →
  ∃ g' mid : Game.t,
    Game.surrender g = Some g'
    ∧ Game.state g' = GAME_OVER
    ∧ (Game.balance g' == Game.balance g + Hand.bet h)%Q
    ∧ g' = Game.resolveHands mid
    ∧ (Game.balance mid == Game.balance g + Hand.bet h / 2)%Q
    ∧ ((Game.resolveHands_report mid).2 == - (Hand.bet h / 2))%Q.
Proof.
  intros Hstate Hhands Hidx Hlen Hallowed [hole Hhole].
  destruct g as [deck hands dealer idx st bal cb settings stats].
  simpl in *. subst st hands idx.
  unfold Game.surrender, Game.currentHand. simpl.
  rewrite bool_decide_eq_true_2 by done. rewrite Hallowed. simpl.
  unfold Game.handleHandComplete, Game.dealerTurn. simpl.
  rewrite orb_true_r. simpl.
  unfold Game.revealHoleCard. simpl. rewrite Hhole. simpl.
  eexists _, _. split; [reflexivity|].
  split; [done|]. split.
  { unfold Game.resolveHands, Game.resolveHand. simpl. field. }
  split; [reflexivity|]. split.
  { simpl. reflexivity. }
  unfold Game.resolveHands_report, Game.resolveHand. simpl. field.
Qed.

(** The round of [round_17_vs_6]: 100 is bet from a balance of 10000,
    the hand surrenders, and the balance is 10000 again. *)
Lemma surrender_refunds_stake_twice_witness :
  (Game.balance (Game.new (rand_picks [9; 5; 6; 8]%nat)) == 10000)%Q
  ∧ round_17_vs_6 = Some dealt_17_vs_6
  ∧ ∃ g' : Game.t,
      Game.surrender dealt_17_vs_6 = Some g'
      ∧ (Game.balance g' == 10000)%Q.
Proof.
  split; [done|]. split; [by vm_compute|].
  destruct (surrender_refunds_stake_twice dealt_17_vs_6
              (default Hand.new (Game.currentHand dealt_17_vs_6)))
    as (g' & mid & Hs & _ & Hbal & _);
    try (vm_compute; reflexivity).
  { vm_compute. by eexists. }
  exists g'. split; [exact Hs|]. rewrite Hbal. by vm_compute.
Defined.

(** Dealing a card takes exactly one card from the draw pile. *)
Lemma dealCardToHand_draws (hand : Game.HandRef) (up : bool) (g g' : Game.t) :
  Game.dealCardToHand hand up g = Some g' →
  length (Deck.cards (Game.deck g))
  = S (length (Deck.cards (Game.deck g'))).
Proof.
  unfold Game.dealCardToHand, Deck.deal.
  destruct (last (Deck.cards (Game.deck g))) as [card|] eqn:Hlast;
    simpl; [|done].
  assert (Hlen : length (Deck.cards (Game.deck g))
                 = S (length (removelast (Deck.cards (Game.deck g))))).
  { destruct (Deck.cards (Game.deck g)) as [|c cs] using rev_ind; [done|].
    rewrite removelast_last, length_app. simpl. lia. }
  destruct hand; simpl.
  - unfold Game.currentHand. simpl.
    destruct (Game.playerHands g !! Game.currentHandIndex g); simpl; [|done].
    intros [= <-]. by destruct up.
  - intros [= <-]. by destruct up.
Qed.

(** The dealer's loop never runs out of fuel: any fuel above the size
    of the draw pile gives the same result, and [None] can only come
    from dealing off an empty shoe. *)
Lemma dealerDraw_fuel (fuel : nat) (g : Game.t) :
  (length (Deck.cards (Game.deck g)) < fuel)%nat →
  Game.dealerDraw fuel g
  = Game.dealerDraw (S (length (Deck.cards (Game.deck g)))) g.
Proof.
  revert g. induction fuel as [|fuel IH]; intros g Hfuel; [lia|].
  simpl. destruct (Game.shouldDealerHit g); [|done].
  destruct (Game.dealCardToHand Game.DealerHand true g) as [g'|] eqn:Hdeal;
    simpl; [|done].
  apply dealCardToHand_draws in Hdeal.
  rewrite Hdeal. rewrite IH by lia. done.
Qed.

(** [split] adds a hand whenever the phase, the pair and the balance
    allow it; it never looks at the number of hands. *)
Lemma split_adds_hand (g g' : Game.t) (h : Hand.t) :
  Game.state g = PLAYER_TURN →
  Game.currentHand g = Some h →
  Hand.canSplit h = true →
  (Hand.bet h <= Game.balance g)%Q →
  Game.split g = Some g' →
  length (Game.playerHands g') = S (length (Game.playerHands g)).
Proof.
  intros Hstate Hcur Hpair Hbal.
  pose proof (lookup_lt_Some _ _ _ Hcur) as Hidx.
  destruct g as [deck hands dealer idx st bal cb settings stats].
  unfold Game.currentHand in Hcur. simpl in *.
  unfold Game.split. rewrite bool_decide_eq_true_2 by done.
  unfold Game.currentHand. simpl.
  rewrite Hcur. simpl. rewrite Hpair. simpl.
  apply Qlt_bool_false in Hbal. rewrite Hbal.
  destruct (last (Hand.cards h)) as [popped|]; [simpl|done].
  unfold Game.dealCardToHand, Game.currentHand. simpl.
  destruct (Deck.deal _) as [[card|] d]; simpl; [|done].
  rewrite lookup_app_l.
  2:{ rewrite length_take, length_insert. apply Nat.min_glb_lt; lia. }
  rewrite lookup_take_lt by lia. rewrite list_lookup_insert_eq by done. simpl.
  intros [= <-]. simpl.
  rewrite length_insert, length_app, length_take, length_cons, length_drop.
  rewrite !length_insert, Nat.min_l by lia. lia.
Qed.

(** Behind its predicate [canSplit], [split] stops at four hands. *)
Lemma guarded_split_at_most_four (g g' : Game.t) :
  Game.canSplit g = Some true →
  Game.split g = Some g' →
  (length (Game.playerHands g') ≤ 4)%nat.
Proof.
  unfold Game.canSplit.
  destruct (decide (Game.state g = PLAYER_TURN)) as [Hstate|Hstate].
  2:{ by rewrite bool_decide_eq_false_2. }
  rewrite bool_decide_eq_true_2 by done. simpl.
  destruct (Game.currentHand g) as [h|] eqn:Hcur; simpl; [|done].
  destruct (Hand.canSplit h) eqn:Hpair; simpl; [|done].
  destruct (Qlt_bool (Game.balance g) (Hand.bet h)) eqn:Hbal; [done|].
  case_bool_decide as Hfour; [done|]. intros _ Hsplit.
  apply Qlt_bool_false in Hbal.
  rewrite (split_adds_hand g g' h Hstate Hcur Hpair Hbal Hsplit). lia.
Qed.

(** C3 fails on the code: [split] invoked directly does not decline
    at four hands.  In the round of [round_four_hands] the phase is
    PLAYER_TURN with four hands, the current hand is a pair of eights
    and [canSplit] answers false, yet [split] takes another stake and
    leaves five hands. *)
Theorem split_allows_fifth_hand :
  round_four_hands = Some four_hands
  ∧ Game.state four_hands = PLAYER_TURN
  ∧ length (Game.playerHands four_hands) = 4%nat
  ∧ Game.canSplit four_hands = Some false
  ∧ ∃ g' : Game.t,
      Game.split four_hands = Some g'
      ∧ length (Game.playerHands g') = 5%nat
      ∧ (Game.balance g' == Game.balance four_hands - 10)%Q.
Proof.
  split; [by vm_compute|]. split; [by vm_compute|].
  split; [by vm_compute|]. split; [by vm_compute|].
  destruct (Game.split four_hands) as [g'|] eqn:Hsplit;
    [|by vm_compute in Hsplit].
  exists g'. split; [done|]. split.
  - erewrite split_adds_hand; [|..|exact Hsplit]; by vm_compute.
  - vm_compute in Hsplit. injection Hsplit as <-. by vm_compute.
Qed.

(** [updateCount] leaves the shoe alone on a face-down card. *)
Lemma updateCount_face_down (c : Card) (d : Deck.t) :
  faceUp c = false → Deck.updateCount (Some c) d = d.
Proof. intros Hc. unfold Deck.updateCount. by rewrite Hc. Qed.

(** On a face-up card it adds the active system's weight for the
    rank. *)
Lemma updateCount_face_up (c : Card) (d : Deck.t) :
  faceUp c = true →
  Deck.runningCount (Deck.updateCount (Some c) d)
  = Deck.runningCount d + COUNTING_SYSTEMS (Deck.countingSystem d) (rank c).
Proof. intros Hc. unfold Deck.updateCount. by rewrite Hc. Qed.

(** C9 fails on the code when the hole card is dealt face up
    ([dealerHoleCard: false]): the card is counted when dealt and
    counted again when the dealer's turn "reveals" it.  In the round of
    [round_all_face_up], played from a freshly shuffled shoe, the four
    cards dealt (10, 9, 7, K) are all face up and weigh -2 in Hi-Lo,
    and the running count ends at -3. *)
Theorem hole_card_counted_twice :
  round_all_face_up = Some all_face_up
  ∧ Deck.runningCount (Game.deck (Game.new (rand_picks [9; 8; 6; 12]%nat))) = 0
  ∧ (rank <$> Deck.dealtCards (Game.deck all_face_up)) = [R10; R9; R7; RK]
  ∧ (rank <$> cardsOnTable all_face_up) = [R10; R7; R9; RK]
  ∧ (faceUp <$> cardsOnTable all_face_up) = [true; true; true; true]
  ∧ Deck.countingSystem (Game.deck all_face_up) = HiLo
  ∧ faceUpWeight HiLo (cardsOnTable all_face_up) = -2
  ∧ Deck.runningCount (Game.deck all_face_up) = -3.
Proof. repeat (split; [by vm_compute|]). by vm_compute. Qed.

(** ** The running count during a round *)

Section CountOffset.

Variable s : CountingSystem.

Lemma faceUpWeight_app (cs1 cs2 : list Card) :
  faceUpWeight s (cs1 ++ cs2) = faceUpWeight s cs1 + faceUpWeight s cs2.
Proof. induction cs1 as [|c cs1 IH]; simpl; lia. Qed.

Lemma faceUpWeight_snoc (cs : list Card) (c : Card) :
  faceUpWeight s (cs ++ [c])
  = faceUpWeight s cs
    + (if faceUp c then COUNTING_SYSTEMS s (rank c) else 0).
Proof. rewrite faceUpWeight_app. simpl. lia. Qed.

(** Replacing the hand at index [i] changes the weight on the table by
    the difference of the two hands. *)
Lemma faceUpWeight_insert (hands : list Hand.t) (i : nat) (h h' : Hand.t) :
  hands !! i = Some h →
  faceUpWeight s (concat (Hand.cards <$> <[i := h']> hands))
  = faceUpWeight s (concat (Hand.cards <$> hands))
    - faceUpWeight s (Hand.cards h) + faceUpWeight s (Hand.cards h').
Proof.
  revert i. induction hands as [|h0 hands IH]; intros [|i] Hi;
    simplify_eq/=; rewrite !faceUpWeight_app; [lia|].
  rewrite (IH i Hi). lia.
Qed.

(** Inserting a hand adds its weight. *)
Lemma faceUpWeight_splice (hands : list Hand.t) (i : nat) (h : Hand.t) :
  faceUpWeight s (concat (Hand.cards <$> (take i hands ++ h :: drop i hands)))
  = faceUpWeight s (concat (Hand.cards <$> hands))
    + faceUpWeight s (Hand.cards h).
Proof.
  pose proof (take_drop i hands) as Hsplit.
  set (before := take i hands) in *. set (after := drop i hands) in *.
  rewrite <- Hsplit.
  rewrite !fmap_app, !concat_app, !faceUpWeight_app, fmap_cons. simpl.
  rewrite faceUpWeight_app. lia.
Qed.

End CountOffset.

(** *** One card dealt face up *)

Lemma dealCardToHand_current (g g' : Game.t) :
  Game.dealCardToHand Game.CurrentHand true g = Some g' → quiet g g'.
Proof.
  destruct g as [deck hands dealer idx st bal cb settings stats].
  unfold Game.dealCardToHand, Deck.deal, Game.currentHand. simpl.
  destruct (last (Deck.cards deck)) as [card|]; simpl; [|done].
  destruct (hands !! idx) as [h|] eqn:Hcur; simpl; [|done].
  intros [= <-]. split; [|done].
  unfold countOffset, cardsOnTable. simpl.
  rewrite !faceUpWeight_app, (faceUpWeight_insert _ _ _ _ _ Hcur).
  rewrite addCard_cards, faceUpWeight_snoc. simpl. lia.
Qed.

Lemma dealCardToHand_dealer (g g' : Game.t) :
  Game.dealCardToHand Game.DealerHand true g = Some g' →
  countOffset g' = countOffset g.
Proof.
  destruct g as [deck hands dealer idx st bal cb settings stats].
  unfold Game.dealCardToHand, Deck.deal. simpl.
  destruct (last (Deck.cards deck)) as [card|]; simpl; [|done].
  intros [= <-].
  unfold countOffset, cardsOnTable. simpl.
  rewrite !faceUpWeight_app, addCard_cards, faceUpWeight_snoc. simpl. lia.
Qed.

(** *** The hole card turned over *)

Lemma revealHoleCard_offset (g g' : Game.t) :
  holeHidden (Game.dealerHand g) →
  Game.revealHoleCard g = Some g' →
  countOffset g' = countOffset g
  ∧ Game.playerHands g' = Game.playerHands g
  ∧ Game.currentHandIndex g' = Game.currentHandIndex g.
Proof.
  intros (up & hole & Hcards & Hdown).
  destruct g as [deck hands dealer idx st bal cb settings stats].
  unfold Game.revealHoleCard. simpl in *. rewrite Hcards. simpl.
  intros [= <-]. split; [|done].
  unfold countOffset, cardsOnTable. simpl.
  rewrite !faceUpWeight_app, Hcards. simpl. rewrite Hdown. lia.
Qed.

(** *** Settling and the dealer's turn *)

Lemma resolveHands_offset (g : Game.t) :
  countOffset (Game.resolveHands g) = countOffset g
  ∧ Game.state (Game.resolveHands g) = GAME_OVER.
Proof.
  unfold Game.resolveHands. simpl.
  by destruct (foldl _ _ _) as [[bal st] total].
Qed.

Lemma dealerDraw_offset (fuel : nat) (g g' : Game.t) :
  Game.dealerDraw fuel g = Some g' → countOffset g' = countOffset g.
Proof.
  revert g. induction fuel as [|fuel IH]; intros g; simpl;
    destruct (Game.shouldDealerHit g); try done; try by intros [= <-].
  destruct (Game.dealCardToHand Game.DealerHand true g) as [g1|] eqn:Hdeal;
    simpl; [|done].
  intros Hdraw. rewrite (IH _ Hdraw). by apply dealCardToHand_dealer.
Qed.

Lemma set_state_offset (st : GameState) (g : Game.t) :
  countOffset (Game.set_state st g) = countOffset g.
Proof. done. Qed.

Lemma dealerTurn_offset (g g' : Game.t) :
  holeHidden (Game.dealerHand g) →
  Game.dealerTurn g = Some g' →
  countOffset g' = countOffset g ∧ Game.state g' = GAME_OVER.
Proof.
  intros Hhidden. unfold Game.dealerTurn.
  destruct (forallb _ _).
  - destruct (Game.revealHoleCard g) as [g1|] eqn:Hreveal; simpl; [|done].
    intros [= <-]. destruct (resolveHands_offset g1) as [-> ->].
    split; [|done]. by apply (revealHoleCard_offset g g1).
  - destruct (Game.revealHoleCard (Game.set_state DEALER_TURN g))
      as [g1|] eqn:Hreveal; cbn -[Game.dealerDraw]; [|done].
    destruct (Game.dealerDraw (S (length (Deck.cards (Game.deck g1)))) g1)
      as [g2|] eqn:Hdraw; cbn -[Game.dealerDraw]; [|done].
    intros [= <-]. destruct (resolveHands_offset g2) as [-> ->].
    split; [|done]. rewrite (dealerDraw_offset _ _ _ Hdraw).
    by apply (revealHoleCard_offset (Game.set_state DEALER_TURN g) g1).
Qed.

(** *** Steps that leave the cards alone *)

Lemma quiet_refl (g : Game.t) : quiet g g.
Proof. done. Qed.

Lemma quiet_trans (g1 g2 g3 : Game.t) : quiet g1 g2 → quiet g2 g3 → quiet g1 g3.
Proof. intros [H1 H1'] [H2 H2']. split; congruence. Qed.

Lemma quiet_settled (g1 g2 g3 : Game.t) :
  quiet g1 g2 → settled g2 g3 → settled g1 g3.
Proof.
  intros [H1 H1'] [H2 [H2'|H2']]; (split; [congruence|]);
    [by left|right; congruence].
Qed.

Lemma settled_of_quiet (g g' : Game.t) : quiet g g' → settled g g'.
Proof. intros [H1 H2]. split; [done|by right]. Qed.

(** Writing flags or the stake of the current hand. *)
Lemma set_currentHand_quiet (g : Game.t) (h h' : Hand.t) :
  Game.currentHand g = Some h →
  Hand.cards h' = Hand.cards h →
  quiet g (Game.set_currentHand h' g).
Proof.
  intros Hcur Hcards.
  destruct g as [deck hands dealer idx st bal cb settings stats].
  unfold Game.currentHand in Hcur. simpl in Hcur.
  split; [|done]. unfold countOffset, cardsOnTable. simpl.
  rewrite list_fmap_insert, Hcards, list_insert_id; [done|].
  by rewrite list_lookup_fmap, Hcur.
Qed.

Lemma handleHandComplete_settled (g g' : Game.t) :
  holeHidden (Game.dealerHand g) →
  Game.handleHandComplete g = Some g' → settled g g'.
Proof.
  intros Hhidden. unfold Game.handleHandComplete.
  case_bool_decide as Hmore.
  - set (g1 := Game.set_currentHandIndex _ g).
    destruct (Game.currentHand g1) as [h|]; simpl; [|done].
    case_bool_decide.
    + intros Hdeal%dealCardToHand_current. by apply settled_of_quiet.
    + intros [= <-]. by apply settled_of_quiet.
  - intros [Hoff Hover]%dealerTurn_offset; [|done]. split; [done|by left].
Qed.

(** *** The player's moves *)

Lemma hit_settled (g g' : Game.t) :
  holeHidden (Game.dealerHand g) → Game.hit g = Some g' → settled g g'.
Proof.
  intros Hhidden. unfold Game.hit.
  destruct (negb _); [intros [= <-]; by apply settled_of_quiet|].
  destruct (Game.dealCardToHand Game.CurrentHand true g) as [g1|] eqn:Hdeal;
    simpl; [|done].
  apply dealCardToHand_current in Hdeal. pose proof Hdeal as [_ Hdealer].
  destruct (Game.currentHand g1) as [h|] eqn:Hcur; simpl; [|done].
  destruct (Hand.isBusted h).
  { intros Hdone. apply (quiet_settled g g1 g' Hdeal).
    apply handleHandComplete_settled; [|done]. by rewrite Hdealer. }
  destruct (_ && _).
  - intros Hdone.
    pose proof (set_currentHand_quiet g1 h (Hand.set_isStood true h) Hcur
                  eq_refl) as Hstood.
    apply (quiet_settled g g1 g' Hdeal), (quiet_settled _ _ _ Hstood).
    apply handleHandComplete_settled; [|done].
    destruct Hstood as [_ ->]. by rewrite Hdealer.
  - intros [= <-]. by apply settled_of_quiet.
Qed.

Lemma stand_settled (g g' : Game.t) :
  holeHidden (Game.dealerHand g) → Game.stand g = Some g' → settled g g'.
Proof.
  intros Hhidden. unfold Game.stand.
  destruct (negb _); [intros [= <-]; by apply settled_of_quiet|].
  destruct (Game.currentHand g) as [h|] eqn:Hcur; simpl; [|done].
  intros Hdone.
  pose proof (set_currentHand_quiet g h (Hand.set_isStood true h) Hcur
                eq_refl) as Hstood.
  apply (quiet_settled _ _ _ Hstood).
  apply handleHandComplete_settled; [|done]. by destruct Hstood as [_ ->].
Qed.

Lemma surrender_settled (g g' : Game.t) :
  holeHidden (Game.dealerHand g) → Game.surrender g = Some g' → settled g g'.
Proof.
  intros Hhidden. unfold Game.surrender.
  destruct (negb _); [intros [= <-]; by apply settled_of_quiet|].
  destruct (Game.currentHand g) as [h|] eqn:Hcur; simpl; [|done].
  destruct (negb _); [intros [= <-]; by apply settled_of_quiet|].
  destruct (negb _); [intros [= <-]; by apply settled_of_quiet|].
  intros Hdone.
  pose proof (set_currentHand_quiet g h (Hand.set_isSurrendered true h) Hcur
                eq_refl) as Hflag.
  assert (Hpaid : quiet g
            (Game.set_balance (Game.balance g + Hand.bet h / 2)%Q
               (Game.set_currentHand (Hand.set_isSurrendered true h) g))).
  { exact Hflag. }
  apply (quiet_settled _ _ _ Hpaid).
  apply handleHandComplete_settled; [|done]. by destruct Hpaid as [_ ->].
Qed.

Lemma double_settled (g g' : Game.t) :
  holeHidden (Game.dealerHand g) → Game.double g = Some g' → settled g g'.
Proof.
  intros Hhidden. unfold Game.double.
  destruct (negb _); [intros [= <-]; by apply settled_of_quiet|].
  destruct (Game.currentHand g) as [h|] eqn:Hcur; simpl; [|done].
  destruct (negb _); [intros [= <-]; by apply settled_of_quiet|].
  destruct (Qlt_bool _ _); [intros [= <-]; by apply settled_of_quiet|].
  set (h1 := Hand.set_isDoubled true _).
  set (g1 := Game.set_stats _ _).
  assert (Hg1 : quiet g g1).
  { exact (set_currentHand_quiet g h h1 Hcur eq_refl). }
  destruct (Game.dealCardToHand Game.CurrentHand true g1) as [g2|] eqn:Hdeal;
    simpl; [|done].
  apply dealCardToHand_current in Hdeal.
  destruct (Game.currentHand g2) as [h2|] eqn:Hcur2; simpl; [|done].
  intros Hdone.
  pose proof (set_currentHand_quiet g2 h2 (Hand.set_isStood true h2) Hcur2
                eq_refl) as Hstood.
  pose proof (quiet_trans _ _ _ (quiet_trans _ _ _ Hg1 Hdeal) Hstood) as Hall.
  apply (quiet_settled _ _ _ Hall).
  apply handleHandComplete_settled; [|done]. by destruct Hall as [_ ->].
Qed.

Lemma split_quiet (g g' : Game.t) : Game.split g = Some g' → quiet g g'.
Proof.
  unfold Game.split.
  destruct (negb _); [intros [= <-]; apply quiet_refl|].
  destruct (Game.currentHand g) as [h|] eqn:Hcur; simpl; [|done].
  destruct (negb _); [intros [= <-]; apply quiet_refl|].
  destruct (Qlt_bool _ _); [intros [= <-]; apply quiet_refl|].
  destruct (last (Hand.cards h)) as [popped|] eqn:Hlast; simpl; [|done].
  apply last_Some in Hlast as [kept Hkept].
  intros Hdeal%dealCardToHand_current.
  apply (quiet_trans _ _ _) with (2 := Hdeal). clear Hdeal g'.
  destruct g as [deck hands dealer idx st bal cb settings stats].
  unfold Game.currentHand in Hcur. simpl in Hcur.
  split; [|done]. unfold countOffset, cardsOnTable. simpl.
  rewrite !faceUpWeight_app, faceUpWeight_splice.
  rewrite (faceUpWeight_insert _ _ _ _ _ Hcur), addCard_cards. simpl.
  rewrite Hkept, removelast_last, faceUpWeight_app. simpl. lia.
Qed.

Lemma handleBlackjack_settled (g g' : Game.t) :
  holeHidden (Game.dealerHand g) →
  Game.handleBlackjack g = Some g' → settled g g'.
Proof.
  intros Hhidden. unfold Game.handleBlackjack.
  destruct (Game.revealHoleCard g) as [g1|] eqn:Hreveal; simpl; [|done].
  apply revealHoleCard_offset in Hreveal as [Hoff _]; [|done].
  destruct (Game.currentHand g1) as [h|]; simpl; [|done].
  intros [= <-]. split; [|by left]. rewrite <- Hoff.
  by destruct (Hand.isBlackjack (Game.dealerHand g1)).
Qed.

Lemma insurance_settled (takeInsurance : bool) (g g' : Game.t) :
  holeHidden (Game.dealerHand g) →
  Game.handleInsuranceDecision takeInsurance g = Some g' →
  settled g g'.
Proof.
  intros Hhidden. unfold Game.handleInsuranceDecision.
  destruct (negb _); [intros [= <-]; by apply settled_of_quiet|].
  set (purchase := if takeInsurance then _ else _).
  assert (Hpurchase : ∀ g1, purchase = Some g1 → quiet g g1).
  { subst purchase. destruct takeInsurance; [|by intros g1 [= <-]].
    destruct (Game.currentHand g) as [h|] eqn:Hcur; simpl; [|done].
    destruct (Qle_bool _ _); [|by intros g1 [= <-]].
    intros g1 [= <-].
    exact (set_currentHand_quiet g h
             (Hand.set_insuranceBet (Hand.bet h / 2)%Q h) Hcur eq_refl). }
  destruct purchase as [g1|]; simpl; [|done].
  specialize (Hpurchase g1 eq_refl).
  assert (Hhidden1 : holeHidden (Game.dealerHand g1)).
  { by destruct Hpurchase as [_ ->]. }
  intros Hrest. apply quiet_settled with (1 := Hpurchase).
  revert Hrest. clear Hpurchase Hhidden g.
  destruct (Hand.isBlackjack (Game.dealerHand g1)).
  - destruct (Game.revealHoleCard g1) as [g3|] eqn:Hreveal; simpl; [|done].
    apply revealHoleCard_offset in Hreveal as [Hoff _]; [|done].
    destruct (Game.currentHand g3) as [h|]; simpl; [|done].
    intros [= <-]. split; [|by left]. rewrite <- Hoff.
    by destruct (Qlt_bool _ _), (Hand.isBlackjack h).
  - destruct (Game.currentHand g1) as [h|]; simpl; [|done].
    destruct (Hand.isBlackjack h); [by apply handleBlackjack_settled|].
    intros [= <-]. by apply settled_of_quiet.
Qed.

(** Between the deal and the end of the round the running count moves
    with the face-up cards on the table: as long as the dealer's second
    card was dealt face down, every move of the player leaves the
    difference between the running count and the weight of the face-up
    cards unchanged, and the hole card stays face down while the engine
    still waits for the player. *)
Lemma count_follows_face_up_cards (m : Move) (g g' : Game.t) :
  holeHidden (Game.dealerHand g) →
  play m g = Some g' →
  countOffset g' = countOffset g
  ∧ (awaitingPlayer g' → holeHidden (Game.dealerHand g')).
Proof.
  intros Hhidden Hplay.
  assert (Hsettled : settled g g').
  { destruct m; simpl in Hplay.
    - by apply hit_settled.
    - by apply stand_settled.
    - by apply double_settled.
    - by apply settled_of_quiet, split_quiet.
    - by apply surrender_settled.
    - by apply (insurance_settled takeInsurance). }
  destruct Hsettled as [Hoff Hdealer]. split; [done|].
  intros [Hstate|Hstate]; destruct Hdealer as [Hover| ->]; congruence || done.
Qed.

(** *** The deal *)

Lemma dealCardToHand_current_frame (g g' : Game.t) :
  Game.dealCardToHand Game.CurrentHand true g = Some g' →
  Game.state g' = Game.state g ∧ Game.settings g' = Game.settings g.
Proof.
  destruct g as [deck hands dealer idx st bal cb settings stats].
  unfold Game.dealCardToHand, Deck.deal, Game.currentHand. simpl.
  destruct (last (Deck.cards deck)) as [card|]; simpl; [|done].
  destruct (hands !! idx) as [h|]; simpl; [|done].
  by intros [= <-].
Qed.

Lemma dealCardToHand_dealer_frame (up : bool) (g g' : Game.t) :
  Game.dealCardToHand Game.DealerHand up g = Some g' →
  countOffset g' = countOffset g
  ∧ Game.state g' = Game.state g
  ∧ Game.settings g' = Game.settings g
  ∧ ∃ c : Card,
      Hand.cards (Game.dealerHand g')
      = Hand.cards (Game.dealerHand g) ++ [setFaceUp up c].
Proof.
  destruct g as [deck hands dealer idx st bal cb settings stats].
  unfold Game.dealCardToHand, Deck.deal. simpl.
  destruct (last (Deck.cards deck)) as [card|]; simpl; [|done].
  intros [= <-]. split.
  - unfold countOffset, cardsOnTable.
    destruct up; simpl;
      rewrite !faceUpWeight_app, addCard_cards, faceUpWeight_snoc; simpl; lia.
  - destruct up; simpl; repeat split; exists card; apply addCard_cards.
Qed.

(** With the hole-card rule on, [deal] leaves the hole card face down
    whenever it hands over to the player, and the running count is what
    the shoe showed when the hands were cleared plus the weight of the
    face-up cards dealt. *)
Lemma deal_hides_hole_card (rand : nat → nat) (g g' : Game.t) :
  Settings.dealerHoleCard (Game.settings g) = true →
  Qeq_bool (Game.currentBet g) 0 = false →
  Game.deal rand g = Some g' →
  countOffset g'
  = Deck.runningCount
      (if Deck.needsReshuffle (Game.deck g)
       then Deck.reshuffle rand (Game.deck g) else Game.deck g)
  ∧ (awaitingPlayer g' → holeHidden (Game.dealerHand g')).
Proof.
  intros Hrule Hbet. unfold Game.deal. rewrite Hbet.
  set (g0 := Game.set_currentHandIndex 0 _).
  assert (Hstart : countOffset g0
                   = Deck.runningCount
                       (if Deck.needsReshuffle (Game.deck g)
                        then Deck.reshuffle rand (Game.deck g)
                        else Game.deck g)).
  { subst g0. unfold countOffset, cardsOnTable.
    destruct (Deck.needsReshuffle (Game.deck g)); simpl; lia. }
  assert (Hrule0 : Settings.dealerHoleCard (Game.settings g0) = true).
  { subst g0. by destruct (Deck.needsReshuffle (Game.deck g)). }
  assert (Hempty : Hand.cards (Game.dealerHand g0) = []).
  { subst g0. by destruct (Deck.needsReshuffle (Game.deck g)). }
  rewrite <- Hstart. clearbody g0. clear Hstart Hrule Hbet g.
  destruct (Game.dealCardToHand Game.CurrentHand true g0) as [g1|] eqn:H1;
    simpl; [|done].
  destruct (Game.dealCardToHand Game.DealerHand true g1) as [g2|] eqn:H2;
    simpl; [|done].
  destruct (Game.dealCardToHand Game.CurrentHand true g2) as [g3|] eqn:H3;
    simpl; [|done].
  destruct (Game.dealCardToHand Game.DealerHand
              (negb (Settings.dealerHoleCard (Game.settings g3))) g3)
    as [g4|] eqn:H4; simpl; [|done].
  pose proof (dealCardToHand_current_frame _ _ H1) as [_ Hs1].
  apply dealCardToHand_current in H1 as [Ho1 Hd1].
  apply dealCardToHand_dealer_frame in H2 as (Ho2 & _ & Hs2 & up & Hd2).
  pose proof (dealCardToHand_current_frame _ _ H3) as [_ Hs3].
  apply dealCardToHand_current in H3 as [Ho3 Hd3].
  assert (Hrule3 : Settings.dealerHoleCard (Game.settings g3) = true)
    by congruence.
  rewrite Hrule3 in H4. simpl in H4.
  apply dealCardToHand_dealer_frame in H4 as (Ho4 & _ & _ & hole & Hd4).
  assert (Hhidden : holeHidden (Game.dealerHand g4)).
  { exists (setFaceUp true up), (setFaceUp false hole).
    split; [|done]. rewrite Hd4, Hd3, Hd2, Hd1, Hempty. done. }
  assert (Hoff : countOffset g4 = countOffset g0) by congruence.
  rewrite <- Hoff. clear -Hhidden.
  destruct (Hand.cards (Game.dealerHand g4) !! 0%nat) as [upCard|];
    simpl; [|done].
  destruct (_ && _).
  { intros [= <-]. done. }
  destruct (Game.currentHand g4) as [h|]; simpl; [|done].
  destruct (Hand.isBlackjack h).
  - intros [Hoff [Hover|Hsame]]%handleBlackjack_settled; [| |done].
    + split; [done|]. intros [?|?]; congruence.
    + split; [done|]. by rewrite Hsame.
  - intros [= <-]. done.
Qed.

(** ** The insurance decision *)

(** Turning a card over changes neither the total nor the aces. *)
Lemma tally_setFaceUp (cs : list Card) (i : nat) (c : Card) (b : bool) :
  cs !! i = Some c →
  Hand.tally (<[i := setFaceUp b c]> cs) = Hand.tally cs.
Proof.
  rewrite !tally_spec. revert i.
  induction cs as [|c' cs IH]; intros [|i] Hi; simplify_eq/=.
  - unfold countAces, value. rewrite !filter_cons. simpl.
    by destruct (decide (rank c = RA)).
  - specialize (IH i Hi). injection IH as Hsum Haces.
    unfold countAces in *. rewrite !filter_cons.
    f_equal; [by rewrite Hsum|].
    destruct (decide (rank c' = RA)); simpl; by rewrite Haces.
Qed.

Lemma revealHoleCard_spec (g : Game.t) (hole : Card) :
  Hand.cards (Game.dealerHand g) !! 1%nat = Some hole →
  ∃ g' : Game.t,
    Game.revealHoleCard g = Some g'
    ∧ Hand.cards (Game.dealerHand g') !! 1%nat = Some (setFaceUp true hole)
    ∧ Deck.runningCount (Game.deck g')
      = Deck.runningCount (Game.deck g)
        + COUNTING_SYSTEMS (Deck.countingSystem (Game.deck g)) (rank hole)
    ∧ Game.playerHands g' = Game.playerHands g
    ∧ Game.currentHandIndex g' = Game.currentHandIndex g
    ∧ Game.balance g' = Game.balance g
    ∧ Game.state g' = Game.state g
    ∧ Hand.isBlackjack (Game.dealerHand g')
      = Hand.isBlackjack (Game.dealerHand g).
Proof.
  intros Hhole. unfold Game.revealHoleCard. rewrite Hhole. simpl.
  eexists. split; [reflexivity|]. simpl.
  split. { apply list_lookup_insert_eq. by eapply lookup_lt_Some. }
  do 5 (split; [done|]).
  unfold Hand.isBlackjack, Hand.getValue. simpl.
  by rewrite length_insert, (tally_setFaceUp _ _ _ _ Hhole).
Qed.

Lemma handleBlackjack_spec (g : Game.t) (h : Hand.t) (hole : Card) :
  Game.currentHand g = Some h →
  Hand.cards (Game.dealerHand g) !! 1%nat = Some hole →
  ∃ g' : Game.t,
    Game.handleBlackjack g = Some g'
    ∧ Hand.cards (Game.dealerHand g') !! 1%nat = Some (setFaceUp true hole)
    ∧ Deck.runningCount (Game.deck g')
      = Deck.runningCount (Game.deck g)
        + COUNTING_SYSTEMS (Deck.countingSystem (Game.deck g)) (rank hole)
    ∧ Game.state g' = GAME_OVER.
Proof.
  intros Hcur Hhole.
  destruct (revealHoleCard_spec g hole Hhole)
    as (g1 & Hg1 & Hup & Hrc & Hhands & Hidx & _).
  unfold Game.handleBlackjack. rewrite Hg1. simpl.
  unfold Game.currentHand in *. rewrite Hhands, Hidx, Hcur. simpl.
  eexists. split; [reflexivity|].
  by destruct (Hand.isBlackjack (Game.dealerHand g1)).
Qed.

(** Buying insurance leaves the dealer's hand and the shoe alone and
    changes only the insurance stake of the current hand. *)
Lemma insurance_purchase (takeInsurance : bool) (g : Game.t) (h : Hand.t) :
  Game.currentHand g = Some h →
  ∃ (g1 : Game.t) (h1 : Hand.t),
    (if takeInsurance then
       h ← Game.currentHand g;
       let insuranceAmount := (Hand.bet h / 2)%Q in
       if Qle_bool insuranceAmount (Game.balance g) then
         let g := Game.set_balance (Game.balance g - insuranceAmount)%Q g in
         Some (Game.set_currentHand
                 (Hand.set_insuranceBet insuranceAmount h) g)
       else Some g
     else Some g) = Some g1
    ∧ Game.dealerHand g1 = Game.dealerHand g
    ∧ Game.deck g1 = Game.deck g
    ∧ Game.currentHand g1 = Some h1
    ∧ Hand.isBlackjack h1 = Hand.isBlackjack h.
Proof.
  intros Hcur. destruct takeInsurance; [|by exists g, h].
  rewrite Hcur. simpl.
  destruct (Qle_bool _ _); [|by exists g, h].
  eexists _, (Hand.set_insuranceBet (Hand.bet h / 2)%Q h).
  split; [reflexivity|]. simpl.
  do 2 (split; [done|]). split; [|reflexivity].
  unfold Game.currentHand in *. simpl.
  apply list_lookup_insert_eq. by eapply lookup_lt_Some.
Qed.

(** C2, as stated, fails when neither side has blackjack: in the round
    of [round_17_vs_ace] (dealer ace up, a 5 face down in the hole,
    player 17) declining insurance leaves the hole card face down and
    the running count where it was, although the 5 weighs +1. *)
Lemma insurance_decision_keeps_hole_card_hidden :
  round_17_vs_ace = Some dealt_17_vs_ace
  ∧ Game.state dealt_17_vs_ace = INSURANCE
  ∧ Hand.cards (Game.dealerHand dealt_17_vs_ace) !! 1%nat
    = Some (mkCard Spades R5 false)
  ∧ COUNTING_SYSTEMS (Deck.countingSystem (Game.deck dealt_17_vs_ace)) R5 = 1
  ∧ ∃ g' : Game.t,
      Game.handleInsuranceDecision false dealt_17_vs_ace = Some g'
      ∧ Hand.cards (Game.dealerHand g') !! 1%nat
        = Some (mkCard Spades R5 false)
      ∧ Deck.runningCount (Game.deck g')
        = Deck.runningCount (Game.deck dealt_17_vs_ace)
      ∧ Game.state g' = PLAYER_TURN.
Proof.
  do 4 (split; [by vm_compute|]).
  eexists. split; [by vm_compute|]. by vm_compute.
Qed.

(** C2, amended.  In the INSURANCE phase [handleInsuranceDecision],
    whatever the decision, turns the dealer's hole card face up and
    adds its weight to the running count exactly when the dealer or
    the player has blackjack, and the round is then over; when neither
    has, the dealer's hand and the shoe, running count included, are
    left as they were and the phase becomes PLAYER_TURN. *)
Theorem insurance_decision_reveals_on_blackjack
    (takeInsurance : bool) (g : Game.t) (h : Hand.t) (hole : Card) :
  Game.state g = INSURANCE →
  Game.currentHand g = Some h →
  Hand.cards (Game.dealerHand g) !! 1%nat = Some hole →
  ∃ g' : Game.t,
    Game.handleInsuranceDecision takeInsurance g = Some g'
    ∧ if Hand.isBlackjack (Game.dealerHand g) || Hand.isBlackjack h then
        Hand.cards (Game.dealerHand g') !! 1%nat = Some (setFaceUp true hole)
        ∧ Deck.runningCount (Game.deck g')
          = Deck.runningCount (Game.deck g)
            + COUNTING_SYSTEMS (Deck.countingSystem (Game.deck g)) (rank hole)
        ∧ Game.state g' = GAME_OVER
      else
        Game.dealerHand g' = Game.dealerHand g
        ∧ Game.deck g' = Game.deck g
        ∧ Game.state g' = PLAYER_TURN.
Proof.
  intros Hstate Hcur Hhole.
  destruct (insurance_purchase takeInsurance g h Hcur)
    as (g1 & h1 & Hg1 & Hdealer & Hdeck & Hcur1 & Hbj).
  unfold Game.handleInsuranceDecision.
  rewrite bool_decide_eq_true_2 by done.
  change (negb true) with false. cbv beta iota zeta. cbv zeta in Hg1.
  rewrite Hg1. simpl. rewrite Hdealer.
  rewrite <- Hdealer in Hhole. rewrite <- Hdeck.
  destruct (Hand.isBlackjack (Game.dealerHand g)); simpl.
  - destruct (revealHoleCard_spec g1 hole Hhole)
      as (g2 & -> & Hup & Hrc & Hhands & Hidx & _). simpl.
    unfold Game.currentHand in *. rewrite Hhands, Hidx, Hcur1. simpl.
    eexists. split; [reflexivity|].
    by destruct (Qlt_bool _ _), (Hand.isBlackjack h1).
  - rewrite Hcur1. simpl. rewrite Hbj. destruct (Hand.isBlackjack h).
    + apply (handleBlackjack_spec g1 h1 hole Hcur1 Hhole).
    + eexists. split; [reflexivity|]. by rewrite <- Hdealer.
Qed.

(** Both cases on dealt rounds: player 17 against ace and 5 (no
    blackjack), and player blackjack against ace and 5. *)
Lemma insurance_decision_reveals_on_blackjack_witness :
  (∃ g' : Game.t,
     Game.handleInsuranceDecision true dealt_17_vs_ace = Some g'
     ∧ Game.dealerHand g' = Game.dealerHand dealt_17_vs_ace
     ∧ Game.state g' = PLAYER_TURN)
  ∧ (∃ g' : Game.t,
       Game.handleInsuranceDecision false dealt_blackjack_vs_ace = Some g'
       ∧ Hand.cards (Game.dealerHand g') !! 1%nat
         = Some (mkCard Spades R5 true)
       ∧ Game.state g' = GAME_OVER).
Proof.
  split.
  - destruct (insurance_decision_reveals_on_blackjack true dealt_17_vs_ace
                (default Hand.new (Game.currentHand dealt_17_vs_ace))
                (mkCard Spades R5 false))
      as (g' & Hg' & Hcase); try (vm_compute; reflexivity).
    change (Hand.isBlackjack _ || Hand.isBlackjack _) with false in Hcase.
    destruct Hcase as (Hd & _ & Hs).
    exact (ex_intro _ g' (conj Hg' (conj Hd Hs))).
  - destruct (insurance_decision_reveals_on_blackjack false
                dealt_blackjack_vs_ace
                (default Hand.new (Game.currentHand dealt_blackjack_vs_ace))
                (mkCard Spades R5 false))
      as (g' & Hg' & Hcase); try (vm_compute; reflexivity).
    change (Hand.isBlackjack _ || Hand.isBlackjack _) with true in Hcase.
    destruct Hcase as (Hd & _ & Hs).
    exact (ex_intro _ g' (conj Hg' (conj Hd Hs))).
Defined.

(** ** The true count *)








